(** * cn_stock_holidays: the Shanghai/Shenzhen exchange calendar

    A shallow embedding of
    [cn_stock_holidays/zipline/exchange_calendar_shsz.py] and the properties
    of its session list, schedule table and minute grid.

    Timestamps are pandas/numpy [datetime64[ns]] values: an integer count of
    nanoseconds since 1970-01-01T00:00 (UTC for aware values, wall clock for
    naive ones).  Arrays ([DatetimeIndex], [ndarray]) are lists.  Python
    exceptions are the [Raise] branch of [result]. *)

From Stdlib Require Import ZArith List Lia Bool.
From Stdlib Require Import Sorting.Sorted.
Import ListNotations.
Open Scope Z_scope.

(** ** Exceptions and the error monad *)

Definition Timestamp := Z.

Inductive exn : Type :=
| NonExistentTimeError (wall : Timestamp)
| AmbiguousTimeError (wall : Timestamp)
| ValueError
| IndexError.

Inductive result (A : Type) : Type :=
| Ok (a : A)
| Raise (e : exn).
Arguments Ok {A} a.
Arguments Raise {A} e.

Definition bind {A B} (r : result A) (k : A -> result B) : result B :=
  match r with
  | Ok a => k a
  | Raise e => Raise e
  end.

Notation "x <- r ;; k" := (bind r (fun x => k))
  (at level 61, r at next level, right associativity).

Fixpoint mapM {A B} (f : A -> result B) (l : list A) : result (list B) :=
  match l with
  | [] => Ok []
  | a :: l' => b <- f a ;; bs <- mapM f l' ;; Ok (b :: bs)
  end.

(** ** Units of time *)

Definition NANOS_IN_MINUTE : Z := 60000000000.
Definition NANOS_IN_SECOND : Z := 1000000000.
Definition NANOS_IN_HOUR : Z := 60 * NANOS_IN_MINUTE.
Definition NANOS_IN_DAY : Z := 24 * NANOS_IN_HOUR.

Definition MONDAY : Z := 0.
Definition TUESDAY : Z := 1.
Definition WEDNESDAY : Z := 2.
Definition THURSDAY : Z := 3.
Definition FRIDAY : Z := 4.
Definition SATURDAY : Z := 5.
Definition SUNDAY : Z := 6.

(** [datetime.time(hour, minute, second)]. *)
Record time : Type := mk_time { hour : Z; minute : Z; second : Z }.

(** [pd.Timedelta(days=, hours=, minutes=, seconds=)] in nanoseconds. *)
Definition Timedelta (days hours minutes seconds : Z) : Z :=
  days * NANOS_IN_DAY + hours * NANOS_IN_HOUR
  + minutes * NANOS_IN_MINUTE + seconds * NANOS_IN_SECOND.

(** Days from 1970-01-01 to the civil date [y]-[m]-[d] (proleptic
    Gregorian), used to write down [pd.Timestamp('yyyy-mm-dd')] literals. *)
Definition days_from_civil (y m d : Z) : Z :=
  let y' := if m <=? 2 then y - 1 else y in
  let era := y' / 400 in
  let yoe := y' - era * 400 in
  let mp := if m <=? 2 then m + 9 else m - 3 in
  let doy := (153 * mp + 2) / 5 + d - 1 in
  let doe := yoe * 365 + yoe / 4 - yoe / 100 + doy in
  era * 146097 + doe - 719468.

(** [pd.Timestamp('y-m-d', tz='UTC')]: midnight of that date. *)
Definition Timestamp_ymd (y m d : Z) : Timestamp :=
  days_from_civil y m d * NANOS_IN_DAY.

(** [pd.Timestamp('y-m-d hh:mm', tz='UTC')]. *)
Definition Timestamp_ymd_hm (y m d hh mm : Z) : Timestamp :=
  Timestamp_ymd y m d + Timedelta 0 hh mm 0.

(** [Timestamp.weekday()]: Monday is 0; 1970-01-01 was a Thursday. *)
Definition weekday (ts : Timestamp) : Z := (ts / NANOS_IN_DAY + 3) mod 7.

(** ** Time zones

    A zone is what pytz keeps for it: the offset in force before the first
    transition and the list of (UTC instant of the transition, offset from
    then on), in ascending order of instant.  Offsets are in nanoseconds. *)

Record tzinfo : Type := mk_tz {
  utcoffset0 : Z;
  transitions : list (Timestamp * Z)
}.

Fixpoint offset_after (cur : Z) (trs : list (Timestamp * Z)) (u : Timestamp) : Z :=
  match trs with
  | [] => cur
  | (t, off) :: rest => if t <=? u then offset_after off rest u else cur
  end.

(** The offset in force at the UTC instant [u]. *)
Definition utcoffset (tz : tzinfo) (u : Timestamp) : Z :=
  offset_after (utcoffset0 tz) (transitions tz) u.

(** The wall clock shown in zone [tz] at the UTC instant [u]. *)
Definition to_wall (tz : tzinfo) (u : Timestamp) : Timestamp :=
  u + utcoffset tz u.

Definition offsets (tz : tzinfo) : list Z :=
  utcoffset0 tz :: map snd (transitions tz).

(** The UTC instants at which zone [tz] shows the wall clock [wall]. *)
Definition candidates (tz : tzinfo) (wall : Timestamp) : list Timestamp :=
  nodup Z.eq_dec
    (filter (fun u => utcoffset tz u =? wall - u)
            (map (fun off => wall - off) (offsets tz))).

(** [DatetimeIndex.tz_localize(tz)] on one naive value, with the defaults
    the source leaves in place ([ambiguous='raise'], [nonexistent='raise']):
    a wall clock no instant shows, or that two instants show, raises. *)
Definition tz_localize (tz : tzinfo) (wall : Timestamp) : result Timestamp :=
  match candidates tz wall with
  | [] => Raise (NonExistentTimeError wall)
  | [u] => Ok u
  | _ :: _ :: _ => Raise (AmbiguousTimeError wall)
  end.

(** ** [days_at_time] *)

(** The sum [days + delta] is taken on unbounded integers: pandas' refusal
    of an instant beyond its 64-bit range, after 2262-04-11, is not
    modelled, and what is proved of a returned index is proved for days
    that pandas can represent. *)
Definition days_at_time (days : list Timestamp) (t : time) (tz : tzinfo)
    (day_offset : Z) : result (list Timestamp) :=
  if (length days =? 0)%nat then Ok days
  else
    (* DatetimeIndex(days).tz_localize(None) keeps the int64 values *)
    let delta := Timedelta day_offset (hour t) (minute t) (second t) in
    (* .tz_localize(tz).tz_convert('UTC') *)
    mapM (fun d => tz_localize tz (d + delta)) days.

Definition lunch_break_start : time := mk_time 11 30 0.
Definition lunch_break_end : time := mk_time 13 1 0.

(** ** Business days and [date_range]

    [pandas.tseries.offsets.CustomBusinessDay]: a week mask (Monday first)
    and a list of holidays, compared by date. *)

Record CustomBusinessDay : Type := mk_cbd {
  weekmask : list bool;
  holidays : list Timestamp
}.

Definition is_holiday (hs : list Timestamp) (ts : Timestamp) : bool :=
  existsb (fun h => h / NANOS_IN_DAY =? ts / NANOS_IN_DAY) hs.

Definition is_on_offset (freq : CustomBusinessDay) (ts : Timestamp) : bool :=
  nth (Z.to_nat (weekday ts)) (weekmask freq) false
  && negb (is_holiday (holidays freq) ts).

(** pandas walks from [start] (rolled forward onto the offset) one business
    day at a time while the cursor is at most [end]; a business-day step is a
    run of calendar-day steps, which is how the walk is written here. [fuel]
    bounds the number of calendar days visited. *)
Fixpoint generate_range (fuel : nat) (freq : CustomBusinessDay)
    (cur end_ : Timestamp) : list Timestamp :=
  match fuel with
  | O => []
  | S fuel' =>
      if end_ <? cur then []
      else if is_on_offset freq cur
           then cur :: generate_range fuel' freq (cur + NANOS_IN_DAY) end_
           else generate_range fuel' freq (cur + NANOS_IN_DAY) end_
  end.

(** [date_range(start, end, freq=freq, tz='UTC')]. *)
Definition date_range (start end_ : Timestamp) (freq : CustomBusinessDay)
    : list Timestamp :=
  generate_range (Z.to_nat ((end_ - start) / NANOS_IN_DAY + 1)) freq start end_.

(** ** numpy arrays *)

(** An elementwise binary operation with numpy's broadcasting of
    one-dimensional operands: equal lengths, or one operand of length 1. *)
Definition np_binop (f : Z -> Z -> Z) (a b : list Z) : result (list Z) :=
  if (length a =? length b)%nat then Ok (map (fun p => f (fst p) (snd p)) (combine a b))
  else match a, b with
       | [x], _ => Ok (map (fun y => f x y) b)
       | _, [y] => Ok (map (fun x => f x y) a)
       | _, _ => Raise ValueError
       end.

(** [arr[i]] for a non-negative [i]. *)
Definition getitem {A} (arr : list A) (i : nat) : result A :=
  match nth_error arr i with
  | Some x => Ok x
  | None => Raise IndexError
  end.

(** [np.arange(start, stop, step)] for a positive [step]:
    [ceil((stop - start) / step)] values, none when that is negative. *)
Definition arange (start stop step : Z) : list Z :=
  map (fun k => start + Z.of_nat k * step)
      (seq 0 (Z.to_nat (- ((start - stop) / step)))).

(** [np.empty(n)]: [n] cells holding whatever was in memory; a cell the
    program has not written yet is [None]. *)
Definition np_empty (n : Z) : result (list (option Z)) :=
  if n <? 0 then Raise ValueError else Ok (repeat None (Z.to_nat n)).

(** A slice bound as Python adjusts it to a sequence of length [len]. *)
Definition slice_index (i len : Z) : Z :=
  if i <? 0 then Z.max 0 (i + len) else Z.min i len.

(** [buf[lo:hi] = src]: the source must have the slice's length or length 1
    (then it is repeated); anything else cannot be broadcast. *)
Definition setslice (buf : list (option Z)) (lo hi : Z) (src : list Z)
    : result (list (option Z)) :=
  let len := Z.of_nat (length buf) in
  let lo' := Z.to_nat (slice_index lo len) in
  let n := Z.to_nat (slice_index hi len - slice_index lo len) in
  if (length src =? n)%nat
  then Ok (firstn lo' buf ++ map Some src ++ skipn (lo' + n) buf)
  else match src with
       | [x] => Ok (firstn lo' buf ++ repeat (Some x) n ++ skipn (lo' + n) buf)
       | _ => Raise ValueError
       end.

(** [values.astype('datetime64[m]')]: whole minutes since the epoch,
    rounded towards minus infinity. *)
Definition astype_m (ts : Timestamp) : Z := ts / NANOS_IN_MINUTE.

(** ** The schedule table *)

Module DataFrame.
Record t : Type := mk {
  index : list Timestamp;
  market_open : list Timestamp;
  market_close : list Timestamp;
  lunch_break_start : list Timestamp;
  lunch_break_end : list Timestamp
}.

(** [pd.DataFrame(index=.., columns=.., data={..})] with array-valued
    columns: values are taken by position, and a column whose length is
    not the index's is refused. *)
Definition new (idx mo mc lbs lbe : list Timestamp) : result t :=
  if ((length mo =? length idx) && (length mc =? length idx)
      && (length lbs =? length idx) && (length lbe =? length idx))%nat
  then Ok (mk idx mo mc lbs lbe)
  else Raise ValueError.

(** The row of the table at position [i]:
    (label, open, break start, break end, close). *)
Definition row (df : t) (i : nat)
    : option (Timestamp * (Timestamp * Timestamp * Timestamp * Timestamp)) :=
  match nth_error (index df) i, nth_error (market_open df) i,
        nth_error (lunch_break_start df) i, nth_error (lunch_break_end df) i,
        nth_error (market_close df) i with
  | Some d, Some o, Some bs, Some be, Some c => Some (d, (o, bs, be, c))
  | _, _, _, _, _ => None
  end.
End DataFrame.

(** ** The calendar *)

(** Modelled from the spec: the tz database entry behind
    [pytz.timezone("Asia/Shanghai")], which the spec gives as a fixed
    UTC+8 offset without seasonal transitions. *)
Definition Asia_Shanghai : tzinfo := mk_tz (8 * NANOS_IN_HOUR) [].

(** The zone of the docstring of [days_at_time], around its 2016
    transitions: EST until 2016-03-13 07:00 UTC, EDT until
    2016-11-06 06:00 UTC, EST afterwards. *)
Definition US_Eastern : tzinfo :=
  mk_tz (-5 * NANOS_IN_HOUR)
        [ (Timestamp_ymd_hm 2016 3 13 7 0, -4 * NANOS_IN_HOUR);
          (Timestamp_ymd_hm 2016 11 6 6 0, -5 * NANOS_IN_HOUR) ].

Definition start_default : Timestamp := Timestamp_ymd 1990 12 19.

Record SHSZExchangeCalendar : Type := mk_calendar {
  _lunch_break_starts : list Timestamp;
  _lunch_break_ends : list Timestamp;
  _opens : list Timestamp;
  _closes : list Timestamp;
  schedule : DataFrame.t
}.

Definition tz : tzinfo := Asia_Shanghai.
Definition open_times : time := mk_time 9 31 0.
Definition close_times : time := mk_time 15 0 0.

(** [_minutes_per_session]. *)
Definition _minutes_per_session (self : SHSZExchangeCalendar) : result (list Z) :=
  let s := schedule self in
  d1 <- np_binop Z.sub (map astype_m (DataFrame.lunch_break_start s))
                       (map astype_m (DataFrame.market_open s)) ;;
  d2 <- np_binop Z.sub (map astype_m (DataFrame.market_close s))
                       (map astype_m (DataFrame.lunch_break_end s)) ;;
  diff <- np_binop Z.add d1 d2 ;;
  Ok (map (fun x => x + 2) diff).

(** The body of the [for day_idx, size in enumerate(daily_sizes)] loop of
    [all_minutes], from position [day_idx] on. *)
Fixpoint fill (opens_in_ns closes_in_ns lunch_break_start_in_ns
    lunch_break_ends_in_ns daily_before_lunch_sizes daily_after_lunch_sizes
    : list Z) (sizes : list Z) (day_idx : nat) (idx : Z)
    (all_minutes : list (option Z)) : result (list (option Z)) :=
  match sizes with
  | [] => Ok all_minutes
  | size :: sizes' =>
      let size_int := size in
      before_lunch_size_int <- getitem daily_before_lunch_sizes day_idx ;;
      after_lunch_size_int <- getitem daily_after_lunch_sizes day_idx ;;
      o <- getitem opens_in_ns day_idx ;;
      bs <- getitem lunch_break_start_in_ns day_idx ;;
      all_minutes <- setslice all_minutes idx (idx + before_lunch_size_int)
                        (arange o (bs + NANOS_IN_MINUTE) NANOS_IN_MINUTE) ;;
      be <- getitem lunch_break_ends_in_ns day_idx ;;
      c <- getitem closes_in_ns day_idx ;;
      all_minutes <- setslice all_minutes (idx + before_lunch_size_int)
                        (idx + size_int)
                        (arange be (c + NANOS_IN_MINUTE) NANOS_IN_MINUTE) ;;
      fill opens_in_ns closes_in_ns lunch_break_start_in_ns
           lunch_break_ends_in_ns daily_before_lunch_sizes
           daily_after_lunch_sizes sizes' (S day_idx) (idx + size_int)
           all_minutes
  end.

(** A span in nanoseconds as a number of grid cells: the source's
    [(delta / NANOS_IN_MINUTE) + 1] on [timedelta64[ns]] values, an integer
    division that truncates. *)
Definition span_size (delta : Z) : Z := Z.quot delta NANOS_IN_MINUTE + 1.

(** The arrays [daily_before_lunch_sizes], [daily_after_lunch_sizes] and
    [daily_sizes] that [all_minutes] computes first. *)
Definition daily_before_lunch_sizes (self : SHSZExchangeCalendar) : result (list Z) :=
  deltas_before_lunch <- np_binop Z.sub (_lunch_break_starts self) (_opens self) ;;
  Ok (map span_size deltas_before_lunch).

Definition daily_after_lunch_sizes (self : SHSZExchangeCalendar) : result (list Z) :=
  deltas_after_lunch <- np_binop Z.sub (_closes self) (_lunch_break_ends self) ;;
  Ok (map span_size deltas_after_lunch).

Definition daily_sizes (self : SHSZExchangeCalendar) : result (list Z) :=
  before <- daily_before_lunch_sizes self ;;
  after <- daily_after_lunch_sizes self ;;
  np_binop Z.add before after.

(** [all_minutes]. *)
Definition all_minutes (self : SHSZExchangeCalendar) : result (list (option Z)) :=
  before <- daily_before_lunch_sizes self ;;
  after <- daily_after_lunch_sizes self ;;
  sizes <- daily_sizes self ;;
  let num_minutes := fold_right Z.add 0 sizes in
  all_minutes <- np_empty num_minutes ;;
  fill (_opens self) (_closes self) (_lunch_break_starts self)
       (_lunch_break_ends self) before after sizes 0%nat 0 all_minutes.

Section Calendar.

(** [pd.Timestamp('today', tz='UTC')] when the module is imported. *)
Variable end_base : Timestamp.
(** [get_cached(use_list=True)], as timestamps. *)
Variable adhoc_holidays : list Timestamp.

Definition end_default : Timestamp := end_base + Timedelta 365 0 0 0.

(** [TradingCalendar.day] of the zipline base class: a
    [CustomBusinessDay] over the ad-hoc holidays with the default week
    mask, Monday to Friday. *)
Definition day : CustomBusinessDay :=
  mk_cbd [true; true; true; true; true; false; false] adhoc_holidays.

(** [TradingCalendar.__init__(self, start, end)] of the zipline base
    class, as far as this calendar relies on it.  It sets [_opens] and
    [_closes], the open and close times of every session of the base
    range, builds its own table of the two, and evaluates
    [self.all_minutes] for [_trading_minutes_nanos]: that is the property
    of this class, which reads the two lunch-break series [self] carries
    already when the base constructor runs.  Nothing else of the base
    constructor is modelled. *)
Definition TradingCalendar_init (lunch_break_starts lunch_break_ends : list Timestamp)
    (start end_ : Timestamp) : result (list Timestamp * list Timestamp) :=
  let _all_days := date_range start end_ day in
  opens <- days_at_time _all_days open_times tz 0 ;;
  closes <- days_at_time _all_days close_times tz 0 ;;
  let self := mk_calendar lunch_break_starts lunch_break_ends opens closes
                (DataFrame.mk _all_days opens closes [] []) in
  _trading_minutes_nanos <- all_minutes self ;;
  Ok (opens, closes).

(** [SHSZExchangeCalendar.__init__(self, start, end)]: the lunch-break
    series are set first, from the requested range; the base constructor
    is then called with the default range, whatever [start] and [end] are;
    the table is built last. *)
Definition init (start end_ : Timestamp) : result SHSZExchangeCalendar :=
  let _all_days := date_range start end_ day in
  lbs <- days_at_time _all_days lunch_break_start tz 0 ;;
  lbe <- days_at_time _all_days lunch_break_end tz 0 ;;
  base <- TradingCalendar_init lbs lbe start_default end_default ;;
  sched <- DataFrame.new _all_days (fst base) (snd base) lbs lbe ;;
  Ok (mk_calendar lbs lbe (fst base) (snd base) sched).

End Calendar.

(** ** The vocabulary of the specification *)

(** A wall clock that no instant of the zone shows (it falls in the gap of
    a transition), and one that two instants show. *)
Definition nonexistent (z : tzinfo) (wall : Timestamp) : Prop :=
  forall u, to_wall z u <> wall.

Definition ambiguous (z : tzinfo) (wall : Timestamp) : Prop :=
  exists u1 u2, u1 <> u2 /\ to_wall z u1 = wall /\ to_wall z u2 = wall.

(** [Localize(d, t)]: the instant at which the zone shows time [t] on the
    day that starts at [d]. *)
Definition Localize (z : tzinfo) (d : Timestamp) (t : time) : result Timestamp :=
  tz_localize z (d + Timedelta 0 (hour t) (minute t) (second t)).

(** [AllDates(start, end)]: [start] and the days after it, up to [end]. *)
Definition AllDates (start end_ x : Timestamp) : Prop :=
  exists k, 0 <= k /\ x = start + k * NANOS_IN_DAY /\ x <= end_.

Definition Weekends (x : Timestamp) : Prop :=
  weekday x = SATURDAY \/ weekday x = SUNDAY.

Definition Holidays (hs : list Timestamp) (x : Timestamp) : Prop :=
  exists h, In h hs /\ h / NANOS_IN_DAY = x / NANOS_IN_DAY.

(** The ticks of one session: both trading windows, end points included. *)
Definition session_minutes (o bs be c : Timestamp) : list Timestamp :=
  arange o (bs + NANOS_IN_MINUTE) NANOS_IN_MINUTE
  ++ arange be (c + NANOS_IN_MINUTE) NANOS_IN_MINUTE.

(** The sessions of a range, and those of the default range. *)
Definition sessions_of (adhoc_holidays : list Timestamp)
    (start end_ : Timestamp) : list Timestamp :=
  date_range start end_ (day adhoc_holidays).

Definition base_sessions (end_base : Timestamp)
    (adhoc_holidays : list Timestamp) : list Timestamp :=
  sessions_of adhoc_holidays start_default (end_default end_base).

(** Row by row, the requested session paired with the default-range
    session whose open and close the row carries. *)
Definition paired_sessions (end_base : Timestamp)
    (adhoc_holidays : list Timestamp) (start end_ : Timestamp)
    : list (Timestamp * Timestamp) :=
  combine (sessions_of adhoc_holidays start end_)
          (base_sessions end_base adhoc_holidays).

(** Time [t] on the day starting at [d], read on a clock eight hours ahead
    of UTC. *)
Definition at_utc8 (t : time) (d : Timestamp) : Timestamp :=
  d + Timedelta 0 (hour t) (minute t) (second t) - 8 * NANOS_IN_HOUR.

(** ** Rows and windows *)

(** A row of boundaries: (open, break start, break end, close). *)
Definition Row : Type := (Timestamp * Timestamp * Timestamp * Timestamp)%type.

Definition row_open (r : Row) : Timestamp := let '(o, _, _, _) := r in o.
Definition row_break_start (r : Row) : Timestamp := let '(_, bs, _, _) := r in bs.
Definition row_break_end (r : Row) : Timestamp := let '(_, _, be, _) := r in be.
Definition row_close (r : Row) : Timestamp := let '(_, _, _, cl) := r in cl.

Definition row_minutes (r : Row) : list Timestamp :=
  session_minutes (row_open r) (row_break_start r) (row_break_end r) (row_close r).

(** [b] is [a] plus a whole, non-negative number of minutes. *)
Definition whole_span (a b : Timestamp) : Prop :=
  exists k, 0 <= k /\ b = a + k * NANOS_IN_MINUTE.

(** A row in order: whole-minute spans and the break after the morning. *)
Definition valid_row (r : Row) : Prop :=
  whole_span (row_open r) (row_break_start r)
  /\ row_break_start r < row_break_end r
  /\ whole_span (row_break_end r) (row_close r).

(** The sizes [all_minutes] computes for a row. *)
Definition before_size (r : Row) : Z := span_size (row_break_start r - row_open r).
Definition after_size (r : Row) : Z := span_size (row_close r - row_break_end r).

(** A calendar whose four series are the columns of [rows]. *)
Definition rows_calendar (rows : list Row) (sched : DataFrame.t)
    : SHSZExchangeCalendar :=
  mk_calendar (map row_break_start rows) (map row_break_end rows)
              (map row_open rows) (map row_close rows) sched.

(** [x] is a tick of one of the two trading windows of the row. *)
Definition in_windows (r : Row) (x : Timestamp) : Prop :=
  (exists k, 0 <= k /\ x = row_open r + k * NANOS_IN_MINUTE
             /\ x <= row_break_start r)
  \/ (exists k, 0 <= k /\ x = row_break_end r + k * NANOS_IN_MINUTE
                /\ x <= row_close r).

(** The row closes before the other one opens. *)
Definition row_before (r r' : Row) : Prop := row_close r < row_open r'.

(** The rows of a calendar of the default range. *)
Definition default_rows (end_base : Timestamp) (adhoc_holidays : list Timestamp)
    : list Row :=
  map (fun d => (at_utc8 open_times d, at_utc8 lunch_break_start d,
                 at_utc8 lunch_break_end d, at_utc8 close_times d))
      (base_sessions end_base adhoc_holidays).

(** The row that pairs the break of the day [d] with the open and close of
    the day [b], and the rows the constructor pairs in this way. *)
Definition mixed_row (d b : Timestamp) : Row :=
  (at_utc8 open_times b, at_utc8 lunch_break_start d,
   at_utc8 lunch_break_end d, at_utc8 close_times b).

Definition mixed_rows (end_base : Timestamp) (adhoc_holidays : list Timestamp)
    (start end_ : Timestamp) : list Row :=
  map (fun p => mixed_row (fst p) (snd p))
      (paired_sessions end_base adhoc_holidays start end_).

(** The loop of [all_minutes] on the columns of a list of rows. *)
Definition fill_from (rows : list Row) (sizes : list Z) (day_idx : nat)
    (idx : Z) (buf : list (option Z)) : result (list (option Z)) :=
  fill (map row_open rows) (map row_close rows) (map row_break_start rows)
       (map row_break_end rows) (map before_size rows) (map after_size rows)
       sizes day_idx idx buf.

(** The rows of a schedule table, without their labels. *)
Definition table_rows (df : DataFrame.t) : list Row :=
  combine (combine (combine (DataFrame.market_open df)
                            (DataFrame.lunch_break_start df))
                   (DataFrame.lunch_break_end df))
          (DataFrame.market_close df).

(** ** Settings of the worked examples *)

(** A module imported on 1990-01-02 at 10:00 UTC, so that the default range
    ends on 1991-01-02 and stays small, with New Year's Day 1991 off. *)
Definition import_1990 : Timestamp := Timestamp_ymd_hm 1990 1 2 10 0.
Definition holidays_1991 : list Timestamp := [Timestamp_ymd 1991 1 1].

(** A module imported on 2016-03-14 at 10:00 UTC, with New Year's Day 2016
    off. *)
Definition import_2016 : Timestamp := Timestamp_ymd_hm 2016 3 14 10 0.
Definition holidays_2016 : list Timestamp := [Timestamp_ymd 2016 1 1].

(** Two sessions in order, 2016-03-14 and 2016-03-15, with a table for
    them, and a row whose break starts half a minute late. *)
Definition rows_march_2016 : list Row :=
  [ (Timestamp_ymd_hm 2016 3 14 1 31, Timestamp_ymd_hm 2016 3 14 3 30,
     Timestamp_ymd_hm 2016 3 14 5 1, Timestamp_ymd_hm 2016 3 14 7 0);
    (Timestamp_ymd_hm 2016 3 15 1 31, Timestamp_ymd_hm 2016 3 15 3 30,
     Timestamp_ymd_hm 2016 3 15 5 1, Timestamp_ymd_hm 2016 3 15 7 0) ].

Definition schedule_march_2016 : DataFrame.t :=
  DataFrame.mk [Timestamp_ymd 2016 3 14; Timestamp_ymd 2016 3 15]
    (map row_open rows_march_2016) (map row_close rows_march_2016)
    (map row_break_start rows_march_2016) (map row_break_end rows_march_2016).

Definition row_half_minute_late : Row :=
  (Timestamp_ymd_hm 2016 3 14 1 31,
   Timestamp_ymd_hm 2016 3 14 3 30 + 30 * NANOS_IN_SECOND,
   Timestamp_ymd_hm 2016 3 14 5 1, Timestamp_ymd_hm 2016 3 14 7 0).

(** * Properties *)

(** ** The error monad *)

Lemma bind_Ok {A B} (r : result A) (k : A -> result B) (b : B) :
  bind r k = Ok b -> exists a, r = Ok a /\ k a = Ok b.
Proof. destruct r; simpl; intros H; [eauto | discriminate]. Qed.

Lemma mapM_Ok_map {A B} (f : A -> result B) (g : A -> B) (l : list A) :
  (forall a, In a l -> f a = Ok (g a)) -> mapM f l = Ok (map g l).
Proof.
  induction l as [|a l IH]; intros H; simpl; [reflexivity|].
  rewrite (H a (or_introl eq_refl)); simpl.
  rewrite IH by (intros; apply H; now right). reflexivity.
Qed.

Lemma mapM_Ok_inv {A B} (f : A -> result B) (l : list A) (bs : list B) :
  mapM f l = Ok bs -> Forall2 (fun a b => f a = Ok b) l bs.
Proof.
  revert bs; induction l as [|a l IH]; simpl; intros bs H.
  - injection H as <-. constructor.
  - apply bind_Ok in H as (b & Hb & H). apply bind_Ok in H as (bs' & Hbs & H).
    injection H as <-. constructor; auto.
Qed.

(** The first element on which [f] raises decides the outcome of [mapM]. *)
Lemma mapM_Raise {A B} (f : A -> result B) (l : list A) (a : A) (e : exn) :
  In a l -> f a = Raise e ->
  exists a' e', In a' l /\ f a' = Raise e' /\ mapM f l = Raise e'.
Proof.
  induction l as [|x l IH]; simpl; intros Hin Hf; [contradiction|].
  destruct (f x) as [b|e0] eqn:Hx.
  - destruct Hin as [->|Hin]; [congruence|].
    destruct (IH Hin Hf) as (a' & e' & Ha' & Hfa' & Hm).
    exists a', e'. rewrite Hm. simpl. auto.
  - exists x, e0. simpl. auto.
Qed.

(** ** Localisation *)

Lemma offset_after_In (cur : Z) (trs : list (Timestamp * Z)) (u : Timestamp) :
  In (offset_after cur trs u) (cur :: map snd trs).
Proof.
  revert cur; induction trs as [|[t off] rest IH]; intros cur; simpl.
  - now left.
  - destruct (t <=? u); [right; apply IH | now left].
Qed.

(** [candidates] lists exactly the instants that show the wall clock. *)
Lemma candidates_spec (z : tzinfo) (wall u : Timestamp) :
  In u (candidates z wall) <-> to_wall z u = wall.
Proof.
  unfold candidates, to_wall. rewrite nodup_In, filter_In, in_map_iff. split.
  - intros [_ H]. apply Z.eqb_eq in H. lia.
  - intros H. split.
    + exists (utcoffset z u). split; [lia | apply offset_after_In].
    + apply Z.eqb_eq. lia.
Qed.

Lemma candidates_NoDup (z : tzinfo) (wall : Timestamp) : NoDup (candidates z wall).
Proof. apply NoDup_nodup. Qed.

Lemma nonexistent_candidates (z : tzinfo) (wall : Timestamp) :
  nonexistent z wall <-> candidates z wall = [].
Proof.
  split.
  - intros H. destruct (candidates z wall) as [|u l] eqn:E; [reflexivity|].
    exfalso. apply (H u). apply candidates_spec. rewrite E. now left.
  - intros E u Hu. apply candidates_spec in Hu. rewrite E in Hu. exact Hu.
Qed.

Lemma ambiguous_candidates (z : tzinfo) (wall : Timestamp) :
  ambiguous z wall <-> (2 <= length (candidates z wall))%nat.
Proof.
  split.
  - intros (u1 & u2 & Hne & H1 & H2).
    apply candidates_spec in H1, H2.
    destruct (candidates z wall) as [|a [|b l]]; simpl in *; lia.
  - intros Hlen. pose proof (candidates_NoDup z wall) as Hnd.
    destruct (candidates z wall) as [|a [|b l]] eqn:E; simpl in Hlen; try lia.
    exists a, b. repeat split.
    + inversion_clear Hnd as [|? ? Hnotin _]. intros ->. apply Hnotin. now left.
    + apply candidates_spec. rewrite E. now left.
    + apply candidates_spec. rewrite E. right. now left.
Qed.

(** A successful localisation returns the one instant showing the wall clock. *)
Lemma tz_localize_Ok (z : tzinfo) (wall u : Timestamp) :
  tz_localize z wall = Ok u ->
  to_wall z u = wall /\ forall u', to_wall z u' = wall -> u' = u.
Proof.
  unfold tz_localize. destruct (candidates z wall) as [|a [|b l]] eqn:E; try discriminate.
  intros [= <-]. split.
  - apply candidates_spec. rewrite E. now left.
  - intros u' Hu'. apply candidates_spec in Hu'. rewrite E in Hu'.
    destruct Hu' as [<-|[]]. reflexivity.
Qed.

Lemma tz_localize_Raise (z : tzinfo) (wall : Timestamp) (e : exn) :
  tz_localize z wall = Raise e ->
  (e = NonExistentTimeError wall /\ nonexistent z wall)
  \/ (e = AmbiguousTimeError wall /\ ambiguous z wall).
Proof.
  unfold tz_localize. destruct (candidates z wall) as [|a [|b l]] eqn:E; try discriminate.
  - intros [= <-]. left. split; [reflexivity | now apply nonexistent_candidates].
  - intros [= <-]. right. split; [reflexivity|].
    apply ambiguous_candidates. rewrite E. simpl. lia.
Qed.

Lemma tz_localize_anomaly (z : tzinfo) (wall : Timestamp) :
  nonexistent z wall \/ ambiguous z wall -> exists e, tz_localize z wall = Raise e.
Proof.
  unfold tz_localize. intros [H|H].
  - apply nonexistent_candidates in H. rewrite H. eauto.
  - apply ambiguous_candidates in H.
    destruct (candidates z wall) as [|a [|b l]]; simpl in H; try lia. eauto.
Qed.

(** C7. When the wall clock computed for one of the days is nonexistent or
    ambiguous in the zone, [days_at_time] raises; the exception is
    [NonExistentTimeError] or [AmbiguousTimeError] and carries a wall clock
    of one of the days that has that very anomaly, so no offset is chosen
    silently. *)
Theorem days_at_time_raises_on_anomaly (z : tzinfo) (days : list Timestamp)
    (t : time) (day_offset d : Z) :
  In d days ->
  (let wall := d + Timedelta day_offset (hour t) (minute t) (second t) in
   nonexistent z wall \/ ambiguous z wall) ->
  exists d' w,
    In d' days /\
    w = d' + Timedelta day_offset (hour t) (minute t) (second t) /\
    ((days_at_time days t z day_offset = Raise (NonExistentTimeError w)
      /\ nonexistent z w)
     \/ (days_at_time days t z day_offset = Raise (AmbiguousTimeError w)
         /\ ambiguous z w)).
Proof.
  intros Hin Han. cbv zeta in Han.
  apply tz_localize_anomaly in Han as [e He].
  unfold days_at_time.
  destruct days as [|d0 days0] eqn:Edays; [contradiction|].
  rewrite <- Edays in *. replace (length days =? 0)%nat with false
    by (subst days; reflexivity).
  destruct (mapM_Raise
              (fun d => tz_localize z (d + Timedelta day_offset (hour t) (minute t) (second t)))
              days d e Hin He) as (d' & e' & Hd' & Hf & Hm).
  exists d', (d' + Timedelta day_offset (hour t) (minute t) (second t)).
  split; [exact Hd'|]. split; [reflexivity|].
  rewrite Hm. apply tz_localize_Raise in Hf as [[-> H]|[-> H]]; auto.
Qed.

Lemma days_at_time_raises_on_anomaly_witness :
  In (Timestamp_ymd 2016 3 13) [Timestamp_ymd 2016 3 12; Timestamp_ymd 2016 3 13]
  /\ nonexistent US_Eastern (Timestamp_ymd 2016 3 13 + Timedelta 0 2 30 0)
  /\ exists d' w,
       In d' [Timestamp_ymd 2016 3 12; Timestamp_ymd 2016 3 13] /\
       w = d' + Timedelta 0 2 30 0 /\
       ((days_at_time [Timestamp_ymd 2016 3 12; Timestamp_ymd 2016 3 13]
           (mk_time 2 30 0) US_Eastern 0 = Raise (NonExistentTimeError w)
         /\ nonexistent US_Eastern w)
        \/ (days_at_time [Timestamp_ymd 2016 3 12; Timestamp_ymd 2016 3 13]
              (mk_time 2 30 0) US_Eastern 0 = Raise (AmbiguousTimeError w)
            /\ ambiguous US_Eastern w)).
Proof.
  assert (Hin : In (Timestamp_ymd 2016 3 13)
                   [Timestamp_ymd 2016 3 12; Timestamp_ymd 2016 3 13])
    by (right; left; reflexivity).
  assert (Hne : nonexistent US_Eastern (Timestamp_ymd 2016 3 13 + Timedelta 0 2 30 0))
    by (apply nonexistent_candidates; vm_compute; reflexivity).
  split; [exact Hin|]. split; [exact Hne|].
  exact (days_at_time_raises_on_anomaly US_Eastern
           [Timestamp_ymd 2016 3 12; Timestamp_ymd 2016 3 13]
           (mk_time 2 30 0) 0 (Timestamp_ymd 2016 3 13) Hin (or_introl Hne)).
Defined.

(** The example of the docstring of [days_at_time]. *)
Example days_at_time_docstring :
  days_at_time [Timestamp_ymd 2016 3 12; Timestamp_ymd 2016 3 13;
                Timestamp_ymd 2016 3 14] (mk_time 8 45 0) US_Eastern 0
  = Ok [Timestamp_ymd_hm 2016 3 12 13 45; Timestamp_ymd_hm 2016 3 13 12 45;
        Timestamp_ymd_hm 2016 3 14 12 45].
Proof. vm_compute. reflexivity. Qed.

(** The autumn transition makes 01:30 ambiguous. *)
Example tz_localize_ambiguous_example :
  tz_localize US_Eastern (Timestamp_ymd_hm 2016 11 6 1 30)
  = Raise (AmbiguousTimeError (Timestamp_ymd_hm 2016 11 6 1 30)).
Proof. vm_compute. reflexivity. Qed.

(** ** Business days *)

Lemma NANOS_IN_DAY_eq : NANOS_IN_DAY = 86400000000000.
Proof. reflexivity. Qed.

Lemma NANOS_IN_HOUR_eq : NANOS_IN_HOUR = 3600000000000.
Proof. reflexivity. Qed.

Lemma NANOS_IN_MINUTE_eq : NANOS_IN_MINUTE = 60000000000.
Proof. reflexivity. Qed.

Ltac nanos :=
  rewrite ?NANOS_IN_DAY_eq, ?NANOS_IN_HOUR_eq, ?NANOS_IN_MINUTE_eq in *.

Lemma generate_range_In (fuel : nat) (freq : CustomBusinessDay)
    (cur end_ x : Timestamp) :
  In x (generate_range fuel freq cur end_) <->
  exists k : nat, (k < fuel)%nat /\ x = cur + Z.of_nat k * NANOS_IN_DAY
                  /\ x <= end_ /\ is_on_offset freq x = true.
Proof.
  revert cur; induction fuel as [|fuel IH]; intros cur; simpl.
  - split; [contradiction | intros (k & Hk & _); lia].
  - destruct (Z.ltb_spec end_ cur) as [Hlt|Hle].
    + split; [contradiction|]. intros (k & _ & -> & Hx & _). nanos. lia.
    + assert (Hrec : In x (generate_range fuel freq (cur + NANOS_IN_DAY) end_) <->
                     exists k : nat, (0 < k < S fuel)%nat
                       /\ x = cur + Z.of_nat k * NANOS_IN_DAY
                       /\ x <= end_ /\ is_on_offset freq x = true).
      { rewrite IH. split.
        - intros (k & Hk & -> & Hx & Hon). exists (S k).
          split; [lia|]. split; [nanos; lia|]. split; [exact Hx | exact Hon].
        - intros (k & Hk & -> & Hx & Hon). exists (pred k).
          split; [lia|]. split; [nanos; lia|]. split; [exact Hx | exact Hon]. }
      destruct (is_on_offset freq cur) eqn:Hcur; simpl; rewrite ?Hrec; split.
      * intros [<-|(k & Hk & H)].
        -- exists 0%nat. split; [lia|]. split; [lia|]. split; [lia | exact Hcur].
        -- exists k. split; [lia | exact H].
      * intros (k & Hk & Hx & H). destruct k as [|k].
        -- left. lia.
        -- right. exists (S k). split; [lia | split; [exact Hx | exact H]].
      * intros (k & Hk & H). exists k. split; [lia | exact H].
      * intros (k & Hk & Hx & Hle' & Hon). destruct k as [|k].
        -- replace x with cur in Hon by lia. congruence.
        -- exists (S k). split; [lia|]. split; [exact Hx|]. split; assumption.
Qed.

Lemma generate_range_sorted (fuel : nat) (freq : CustomBusinessDay)
    (cur end_ : Timestamp) :
  StronglySorted Z.lt (generate_range fuel freq cur end_).
Proof.
  revert cur; induction fuel as [|fuel IH]; intros cur; simpl; [constructor|].
  destruct (end_ <? cur); [constructor|].
  destruct (is_on_offset freq cur); [|apply IH].
  constructor; [apply IH|].
  apply Forall_forall. intros x Hx.
  apply generate_range_In in Hx as (k & _ & -> & _). nanos. lia.
Qed.

Lemma StronglySorted_lt_NoDup (l : list Z) : StronglySorted Z.lt l -> NoDup l.
Proof.
  induction 1 as [|a l Hs IH Hall]; constructor; [|exact IH].
  intros Hin. rewrite Forall_forall in Hall. specialize (Hall a Hin). lia.
Qed.

Lemma date_range_In (start end_ : Timestamp) (freq : CustomBusinessDay)
    (x : Timestamp) :
  In x (date_range start end_ freq) <->
  AllDates start end_ x /\ is_on_offset freq x = true.
Proof.
  unfold date_range, AllDates. rewrite generate_range_In. split.
  - intros (k & _ & Hx & Hle & Hon). split; [|exact Hon].
    exists (Z.of_nat k). split; [lia|]. split; [exact Hx | exact Hle].
  - intros ((k & Hk & Hx & Hle) & Hon). exists (Z.to_nat k).
    rewrite Z2Nat.id by exact Hk.
    assert (k <= (end_ - start) / NANOS_IN_DAY).
    { apply Z.div_le_lower_bound; nanos; lia. }
    split; [lia|]. split; [exact Hx|]. split; assumption.
Qed.

Lemma date_range_sorted (start end_ : Timestamp) (freq : CustomBusinessDay) :
  StronglySorted Z.lt (date_range start end_ freq).
Proof. apply generate_range_sorted. Qed.

Lemma weekday_bound (x : Timestamp) : 0 <= weekday x < 7.
Proof. unfold weekday. apply Z.mod_pos_bound. lia. Qed.

Lemma is_holiday_spec (hs : list Timestamp) (x : Timestamp) :
  is_holiday hs x = true <-> Holidays hs x.
Proof.
  unfold is_holiday, Holidays. rewrite existsb_exists.
  split; intros (h & Hin & H); exists h; (split; [exact Hin|]);
    [now apply Z.eqb_eq in H | now apply Z.eqb_eq].
Qed.

(** The calendar's business days: Monday to Friday, holidays excepted. *)
Lemma is_on_offset_day (hs : list Timestamp) (x : Timestamp) :
  is_on_offset (day hs) x = true <-> ~ Weekends x /\ ~ Holidays hs x.
Proof.
  unfold is_on_offset, day, Weekends, SATURDAY, SUNDAY; cbn [weekmask holidays].
  rewrite andb_true_iff, negb_true_iff, <- not_true_iff_false, is_holiday_spec.
  pose proof (weekday_bound x) as Hw.
  assert (Hmask : nth (Z.to_nat (weekday x))
                      [true; true; true; true; true; false; false] false = true
                  <-> ~ (weekday x = 5 \/ weekday x = 6)).
  { assert (Hc : weekday x = 0 \/ weekday x = 1 \/ weekday x = 2 \/ weekday x = 3
                 \/ weekday x = 4 \/ weekday x = 5 \/ weekday x = 6) by lia.
    destruct Hc as [E|[E|[E|[E|[E|[E|E]]]]]]; rewrite E; simpl; split; intros H;
      try reflexivity; try discriminate; lia. }
  tauto.
Qed.

(** ** Localisation in Asia/Shanghai *)

Lemma tz_localize_Shanghai (wall : Timestamp) :
  tz_localize Asia_Shanghai wall = Ok (wall - 8 * NANOS_IN_HOUR).
Proof.
  unfold tz_localize, candidates, offsets, utcoffset, Asia_Shanghai.
  cbn [utcoffset0 transitions map filter offset_after snd].
  replace (wall - (wall - 8 * NANOS_IN_HOUR)) with (8 * NANOS_IN_HOUR) by lia.
  rewrite Z.eqb_refl. reflexivity.
Qed.

Lemma Localize_Shanghai (d : Timestamp) (t : time) :
  Localize tz d t = Ok (at_utc8 t d).
Proof. unfold Localize, tz. apply tz_localize_Shanghai. Qed.

Lemma days_at_time_Shanghai (days : list Timestamp) (t : time) :
  days_at_time days t tz 0 = Ok (map (at_utc8 t) days).
Proof.
  unfold days_at_time. destruct days as [|d days]; [reflexivity|].
  cbn [length Nat.eqb]. apply mapM_Ok_map. intros a _. apply tz_localize_Shanghai.
Qed.

Lemma at_utc8_ordered (d : Timestamp) :
  at_utc8 open_times d < at_utc8 lunch_break_start d
  /\ at_utc8 lunch_break_start d < at_utc8 lunch_break_end d
  /\ at_utc8 lunch_break_end d < at_utc8 close_times d.
Proof. unfold at_utc8, Timedelta; cbn [hour minute second open_times lunch_break_start lunch_break_end close_times]. nanos. lia. Qed.

Lemma default_spans (d : Timestamp) :
  at_utc8 lunch_break_start d - at_utc8 open_times d = 119 * NANOS_IN_MINUTE
  /\ at_utc8 close_times d - at_utc8 lunch_break_end d = 119 * NANOS_IN_MINUTE.
Proof.
  unfold at_utc8, Timedelta.
  cbn [hour minute second open_times close_times lunch_break_start lunch_break_end].
  nanos. lia.
Qed.

(** ** Arrays *)

Lemma np_binop_same_length (f : Z -> Z -> Z) (a b : list Z) :
  length a = length b ->
  np_binop f a b = Ok (map (fun p => f (fst p) (snd p)) (combine a b)).
Proof. intros H. unfold np_binop. rewrite H, Nat.eqb_refl. reflexivity. Qed.

Lemma np_binop_mismatch (f : Z -> Z -> Z) (a b : list Z) :
  length a <> length b -> length a <> 1%nat -> length b <> 1%nat ->
  np_binop f a b = Raise ValueError.
Proof.
  intros Hne Ha Hb. unfold np_binop.
  apply Nat.eqb_neq in Hne. rewrite Hne.
  destruct a as [|x [|y a]], b as [|x' [|y' b]];
    cbn [length] in Ha, Hb; try congruence; reflexivity.
Qed.

Lemma map_combine_maps {A B C D E : Type} (h : C -> D -> E) (f : A -> C)
    (g : B -> D) (l1 : list A) (l2 : list B) :
  map (fun p => h (fst p) (snd p)) (combine (map f l1) (map g l2))
  = map (fun p => h (f (fst p)) (g (snd p))) (combine l1 l2).
Proof.
  revert l2; induction l1 as [|a l1 IH]; intros [|b l2]; simpl; try reflexivity.
  now rewrite IH.
Qed.

Lemma map_combine_swap {A B C : Type} (k : A -> B -> C) (l1 : list A) (l2 : list B) :
  map (fun p => k (fst p) (snd p)) (combine l1 l2)
  = map (fun p => k (snd p) (fst p)) (combine l2 l1).
Proof.
  revert l2; induction l1 as [|a l1 IH]; intros [|b l2]; simpl; try reflexivity.
  now rewrite IH.
Qed.

Lemma map_combine_same {A B C D : Type} (h : B -> C -> D) (f : A -> B)
    (g : A -> C) (l : list A) :
  map (fun p => h (fst p) (snd p)) (combine (map f l) (map g l))
  = map (fun x => h (f x) (g x)) l.
Proof. induction l as [|a l IH]; simpl; [reflexivity | now rewrite IH]. Qed.

Lemma nth_error_combine {A B : Type} (l1 : list A) (l2 : list B) (i : nat) :
  nth_error (combine l1 l2) i
  = match nth_error l1 i, nth_error l2 i with
    | Some a, Some b => Some (a, b)
    | _, _ => None
    end.
Proof.
  revert l2 i; induction l1 as [|a l1 IH]; intros [|b l2] [|i]; simpl;
    try reflexivity.
  - destruct (nth_error l1 i); reflexivity.
  - apply IH.
Qed.

(** ** Whole minutes *)

Lemma divide_minute_day : (NANOS_IN_MINUTE | NANOS_IN_DAY).
Proof. exists 1440. reflexivity. Qed.

Lemma date_range_whole_minute (start end_ : Timestamp) (freq : CustomBusinessDay)
    (x : Timestamp) :
  (NANOS_IN_MINUTE | start) -> In x (date_range start end_ freq) ->
  (NANOS_IN_MINUTE | x).
Proof.
  intros Hs Hx. apply date_range_In in Hx as [(k & _ & -> & _) _].
  apply Z.divide_add_r; [exact Hs|].
  apply Z.divide_mul_r, divide_minute_day.
Qed.

Lemma start_default_whole_minute : (NANOS_IN_MINUTE | start_default).
Proof. exists (start_default / NANOS_IN_MINUTE). vm_compute. reflexivity. Qed.

Lemma at_utc8_whole_minute (t : time) (d : Timestamp) :
  second t = 0 -> (NANOS_IN_MINUTE | d) -> (NANOS_IN_MINUTE | at_utc8 t d).
Proof.
  intros Hsec [q ->]. unfold at_utc8, Timedelta. rewrite Hsec.
  exists (q + hour t * 60 + minute t - 480). nanos. unfold NANOS_IN_SECOND. lia.
Qed.

(** On whole minutes the difference of the minute counts is the truncated
    quotient of the difference. *)
Lemma astype_m_sub (x y : Timestamp) :
  (NANOS_IN_MINUTE | x) -> (NANOS_IN_MINUTE | y) ->
  astype_m x - astype_m y = Z.quot (x - y) NANOS_IN_MINUTE.
Proof.
  intros [a ->] [b ->]. unfold astype_m.
  replace (a * NANOS_IN_MINUTE - b * NANOS_IN_MINUTE)
    with ((a - b) * NANOS_IN_MINUTE) by lia.
  rewrite !Z.div_mul, Z.quot_mul by (nanos; lia). reflexivity.
Qed.

Lemma arange_length (start stop step : Z) :
  length (arange start stop step) = Z.to_nat (- ((start - stop) / step)).
Proof. unfold arange. now rewrite length_map, length_seq. Qed.

(** A span of [k] whole minutes, [k] not negative, has [k + 1] ticks, the
    size the source computes for it. *)
Lemma span_size_arange (o bs : Timestamp) (k : Z) :
  0 <= k -> bs = o + k * NANOS_IN_MINUTE ->
  span_size (bs - o) = k + 1
  /\ length (arange o (bs + NANOS_IN_MINUTE) NANOS_IN_MINUTE) = Z.to_nat (k + 1).
Proof.
  intros Hk ->. split.
  - unfold span_size. replace (o + k * NANOS_IN_MINUTE - o) with (k * NANOS_IN_MINUTE) by lia.
    rewrite Z.quot_mul by (nanos; lia). reflexivity.
  - rewrite arange_length.
    replace (o - (o + k * NANOS_IN_MINUTE + NANOS_IN_MINUTE))
      with (- (k + 1) * NANOS_IN_MINUTE) by lia.
    rewrite Z.div_mul by (nanos; lia). f_equal. lia.
Qed.

Lemma whole_minute_span (o bs : Timestamp) :
  (NANOS_IN_MINUTE | o) -> (NANOS_IN_MINUTE | bs) -> o <= bs ->
  exists k, 0 <= k /\ bs = o + k * NANOS_IN_MINUTE.
Proof.
  intros [a ->] [b ->] H. exists (b - a). split; [nanos; lia | lia].
Qed.

Lemma session_minutes_length (o bs be cl : Timestamp) (kb ka : Z) :
  0 <= kb -> bs = o + kb * NANOS_IN_MINUTE ->
  0 <= ka -> cl = be + ka * NANOS_IN_MINUTE ->
  Z.of_nat (length (session_minutes o bs be cl))
  = span_size (bs - o) + span_size (cl - be).
Proof.
  intros Hkb Hbs Hka Hcl. unfold session_minutes. rewrite length_app.
  destruct (span_size_arange o bs kb Hkb Hbs) as [-> ->].
  destruct (span_size_arange be cl ka Hka Hcl) as [-> ->]. lia.
Qed.

(** ** The minute grid of rows in order *)

Lemma setslice_fill (done : list (option Z)) (n m : nat) (src : list Z) :
  length src = n ->
  setslice (done ++ repeat None (n + m)) (Z.of_nat (length done))
           (Z.of_nat (length done) + Z.of_nat n) src
  = Ok (done ++ map Some src ++ repeat None m).
Proof.
  intros Hsrc. unfold setslice.
  rewrite length_app, repeat_length.
  assert (Hlo : slice_index (Z.of_nat (length done))
                  (Z.of_nat (length done + (n + m))) = Z.of_nat (length done)).
  { unfold slice_index. destruct (Z.ltb_spec (Z.of_nat (length done)) 0); lia. }
  assert (Hhi : slice_index (Z.of_nat (length done) + Z.of_nat n)
                  (Z.of_nat (length done + (n + m)))
                = Z.of_nat (length done) + Z.of_nat n).
  { unfold slice_index.
    destruct (Z.ltb_spec (Z.of_nat (length done) + Z.of_nat n) 0); lia. }
  rewrite Hlo, Hhi, Nat2Z.id.
  replace (Z.to_nat (Z.of_nat (length done) + Z.of_nat n - Z.of_nat (length done)))
    with n by lia.
  rewrite Hsrc, Nat.eqb_refl.
  rewrite firstn_app, firstn_all, Nat.sub_diag, firstn_O, app_nil_r.
  rewrite skipn_app, skipn_all2 by lia.
  replace (length done + n - length done)%nat with n by lia.
  rewrite repeat_app, skipn_app, repeat_length, Nat.sub_diag, skipn_O.
  rewrite skipn_all2 by (rewrite repeat_length; lia).
  reflexivity.
Qed.

Lemma getitem_middle {A B : Type} (f : A -> B) (pre : list A) (r : A) (rows : list A) :
  getitem (map f (pre ++ r :: rows)) (length pre) = Ok (f r).
Proof.
  unfold getitem. rewrite nth_error_map, nth_error_app2, Nat.sub_diag by lia.
  reflexivity.
Qed.

Lemma before_size_length (r : Row) :
  valid_row r ->
  before_size r
  = Z.of_nat (length (arange (row_open r) (row_break_start r + NANOS_IN_MINUTE)
                             NANOS_IN_MINUTE)).
Proof.
  intros ((k & Hk & E) & _). unfold before_size.
  destruct (span_size_arange _ _ k Hk E) as [-> ->]. lia.
Qed.

Lemma after_size_length (r : Row) :
  valid_row r ->
  after_size r
  = Z.of_nat (length (arange (row_break_end r) (row_close r + NANOS_IN_MINUTE)
                             NANOS_IN_MINUTE)).
Proof.
  intros (_ & _ & (k & Hk & E)). unfold after_size.
  destruct (span_size_arange _ _ k Hk E) as [-> ->]. lia.
Qed.

Lemma fill_rows (rows pre : list Row) (done : list (option Z)) :
  Forall valid_row rows ->
  fill (map row_open (pre ++ rows)) (map row_close (pre ++ rows))
       (map row_break_start (pre ++ rows)) (map row_break_end (pre ++ rows))
       (map before_size (pre ++ rows)) (map after_size (pre ++ rows))
       (map (fun r => before_size r + after_size r) rows)
       (length pre) (Z.of_nat (length done))
       (done ++ repeat None (length (flat_map row_minutes rows)))
  = Ok (done ++ map Some (flat_map row_minutes rows)).
Proof.
  revert pre done. induction rows as [|r rows IH]; intros pre done Hvalid.
  - reflexivity.
  - inversion_clear Hvalid as [|? ? Hr Hrows].
    cbn [map fill flat_map].
    rewrite !getitem_middle. cbn [bind].
    unfold row_minutes at 1 3. unfold session_minutes.
    rewrite (before_size_length r Hr), (after_size_length r Hr).
    set (sb := arange (row_open r) (row_break_start r + NANOS_IN_MINUTE)
                      NANOS_IN_MINUTE).
    set (sa := arange (row_break_end r) (row_close r + NANOS_IN_MINUTE)
                      NANOS_IN_MINUTE).
    rewrite !length_app, <- Nat.add_assoc.
    rewrite setslice_fill by reflexivity. cbn [bind].
    rewrite app_assoc.
    replace (Z.of_nat (length done) + Z.of_nat (length sb))
      with (Z.of_nat (length (done ++ map Some sb)))
      by (rewrite length_app, length_map; lia).
    replace (Z.of_nat (length done) + (Z.of_nat (length sb) + Z.of_nat (length sa)))
      with (Z.of_nat (length (done ++ map Some sb)) + Z.of_nat (length sa))
      by (rewrite length_app, length_map; lia).
    rewrite setslice_fill by reflexivity. cbn [bind].
    rewrite app_assoc.
    replace (Z.of_nat (length (done ++ map Some sb)) + Z.of_nat (length sa))
      with (Z.of_nat (length ((done ++ map Some sb) ++ map Some sa)))
      by (rewrite !length_app, !length_map; lia).
    replace (S (length pre)) with (length (pre ++ [r]))
      by (rewrite length_app; simpl; lia).
    replace (pre ++ r :: rows) with ((pre ++ [r]) ++ rows)
      by (rewrite <- app_assoc; reflexivity).
    rewrite IH by exact Hrows.
    rewrite !map_app, <- !app_assoc. reflexivity.
Qed.

Lemma row_minutes_length (r : Row) :
  valid_row r ->
  Z.of_nat (length (row_minutes r)) = before_size r + after_size r.
Proof.
  intros Hr. unfold row_minutes, session_minutes. rewrite length_app.
  rewrite (before_size_length r Hr), (after_size_length r Hr). lia.
Qed.

Lemma sum_sizes (rows : list Row) :
  Forall valid_row rows ->
  fold_right Z.add 0 (map (fun r => before_size r + after_size r) rows)
  = Z.of_nat (length (flat_map row_minutes rows)).
Proof.
  induction 1 as [|r rows Hr _ IH]; [reflexivity|].
  cbn [map fold_right flat_map].
  rewrite IH, length_app, <- (row_minutes_length r Hr). lia.
Qed.

Lemma rows_calendar_before_sizes (rows : list Row) (sched : DataFrame.t) :
  daily_before_lunch_sizes (rows_calendar rows sched) = Ok (map before_size rows).
Proof.
  unfold daily_before_lunch_sizes, rows_calendar. cbn [_lunch_break_starts _opens].
  rewrite np_binop_same_length by (now rewrite !length_map).
  cbn [bind]. rewrite map_map.
  now rewrite (map_combine_same (fun a b => span_size (a - b))).
Qed.

Lemma rows_calendar_after_sizes (rows : list Row) (sched : DataFrame.t) :
  daily_after_lunch_sizes (rows_calendar rows sched) = Ok (map after_size rows).
Proof.
  unfold daily_after_lunch_sizes, rows_calendar. cbn [_lunch_break_ends _closes].
  rewrite np_binop_same_length by (now rewrite !length_map).
  cbn [bind]. rewrite map_map.
  now rewrite (map_combine_same (fun a b => span_size (a - b))).
Qed.

Lemma rows_calendar_daily_sizes (rows : list Row) (sched : DataFrame.t) :
  daily_sizes (rows_calendar rows sched)
  = Ok (map (fun r => before_size r + after_size r) rows).
Proof.
  unfold daily_sizes.
  rewrite rows_calendar_before_sizes, rows_calendar_after_sizes. cbn [bind].
  rewrite np_binop_same_length by (now rewrite !length_map).
  now rewrite (map_combine_same Z.add).
Qed.

Lemma all_minutes_rows (rows : list Row) (sched : DataFrame.t) :
  Forall valid_row rows ->
  all_minutes (rows_calendar rows sched)
  = Ok (map Some (flat_map row_minutes rows)).
Proof.
  intros Hvalid.
  assert (Hb : daily_before_lunch_sizes (rows_calendar rows sched)
               = Ok (map before_size rows)).
  { unfold daily_before_lunch_sizes, rows_calendar. cbn [_lunch_break_starts _opens].
    rewrite np_binop_same_length by (now rewrite !length_map).
    cbn [bind]. rewrite map_map.
    now rewrite (map_combine_same (fun a b => span_size (a - b))). }
  assert (Ha : daily_after_lunch_sizes (rows_calendar rows sched)
               = Ok (map after_size rows)).
  { unfold daily_after_lunch_sizes, rows_calendar. cbn [_lunch_break_ends _closes].
    rewrite np_binop_same_length by (now rewrite !length_map).
    cbn [bind]. rewrite map_map.
    now rewrite (map_combine_same (fun a b => span_size (a - b))). }
  assert (Hs : daily_sizes (rows_calendar rows sched)
               = Ok (map (fun r => before_size r + after_size r) rows)).
  { unfold daily_sizes. rewrite Hb, Ha. cbn [bind].
    rewrite np_binop_same_length by (now rewrite !length_map).
    now rewrite (map_combine_same Z.add). }
  unfold all_minutes. rewrite Hb, Ha, Hs. cbn [bind].
  rewrite (sum_sizes rows Hvalid). unfold np_empty.
  destruct (Z.ltb_spec (Z.of_nat (length (flat_map row_minutes rows))) 0) as [H|_];
    [lia|].
  cbn [bind]. rewrite Nat2Z.id.
  exact (fill_rows rows [] [] Hvalid).
Qed.

Lemma arange_In (start stop x : Z) :
  In x (arange start stop NANOS_IN_MINUTE) <->
  exists k, 0 <= k /\ x = start + k * NANOS_IN_MINUTE /\ x < stop.
Proof.
  unfold arange. rewrite in_map_iff.
  pose proof (Z.div_mod (start - stop) NANOS_IN_MINUTE) as Hdm.
  pose proof (Z.mod_pos_bound (start - stop) NANOS_IN_MINUTE) as Hmod.
  nanos. specialize (Hdm ltac:(lia)). specialize (Hmod ltac:(lia)).
  split.
  - intros (k & <- & Hk). apply in_seq in Hk. exists (Z.of_nat k).
    split; [lia|]. split; [reflexivity|]. lia.
  - intros (k & Hk & -> & Hlt). exists (Z.to_nat k).
    rewrite Z2Nat.id by exact Hk. split; [reflexivity|].
    apply in_seq. lia.
Qed.

Lemma arange_sorted (start stop : Z) :
  StronglySorted Z.lt (arange start stop NANOS_IN_MINUTE).
Proof.
  unfold arange. generalize (Z.to_nat (- ((start - stop) / NANOS_IN_MINUTE))).
  intros n. generalize 0%nat as a.
  induction n as [|n IH]; intros a; cbn [seq map]; constructor.
  - apply IH.
  - apply Forall_forall. intros x Hx. apply in_map_iff in Hx as (k & <- & Hk).
    apply in_seq in Hk. nanos. lia.
Qed.

Lemma StronglySorted_app (l1 l2 : list Z) :
  StronglySorted Z.lt l1 -> StronglySorted Z.lt l2 ->
  (forall x y, In x l1 -> In y l2 -> x < y) ->
  StronglySorted Z.lt (l1 ++ l2).
Proof.
  intros H1 H2 H. induction H1 as [|a l1 Hs IH Hall]; [exact H2|].
  cbn [app]. constructor.
  - apply IH. intros x y Hx Hy. apply H; [now right | exact Hy].
  - apply Forall_app. split; [exact Hall|].
    apply Forall_forall. intros y Hy. apply H; [now left | exact Hy].
Qed.

Lemma row_minutes_In (r : Row) (x : Timestamp) :
  valid_row r -> (In x (row_minutes r) <-> in_windows r x).
Proof.
  intros ((kb & Hkb & Ebs) & Hlt & (ka & Hka & Ecl)).
  unfold row_minutes, session_minutes, in_windows.
  rewrite in_app_iff, !arange_In. nanos.
  split; (intros [(k & Hk & Hx & Hb)|(k & Hk & Hx & Hb)];
          [left | right]; exists k; (split; [exact Hk|]); (split; [exact Hx|]); lia).
Qed.

Lemma in_windows_bounds (r : Row) (x : Timestamp) :
  valid_row r -> in_windows r x ->
  row_open r <= x <= row_close r
  /\ ~ (row_break_start r < x < row_break_end r).
Proof.
  intros ((kb & Hkb & Ebs) & Hlt & (ka & Hka & Ecl)).
  intros [(k & Hk & Hx & Hb)|(k & Hk & Hx & Hb)]; nanos; lia.
Qed.

Lemma row_minutes_sorted (r : Row) :
  valid_row r -> StronglySorted Z.lt (row_minutes r).
Proof.
  intros Hr. unfold row_minutes, session_minutes.
  apply StronglySorted_app; try apply arange_sorted.
  intros x y Hx Hy.
  destruct Hr as ((kb & Hkb & Ebs) & Hlt & (ka & Hka & Ecl)).
  apply arange_In in Hx as (k & Hk & Hx & Hb).
  apply arange_In in Hy as (k' & Hk' & Hy & Hb'). nanos. lia.
Qed.

Lemma grid_sorted (rows : list Row) :
  Forall valid_row rows -> StronglySorted row_before rows ->
  StronglySorted Z.lt (flat_map row_minutes rows).
Proof.
  intros Hvalid Hsorted. induction Hsorted as [|r rows Hs IH Hall];
    [constructor|].
  inversion_clear Hvalid as [|? ? Hr Hrows]. cbn [flat_map].
  apply StronglySorted_app; [now apply row_minutes_sorted | now apply IH |].
  intros x y Hx Hy. apply in_flat_map in Hy as (r' & Hr' & Hy).
  rewrite Forall_forall in Hall, Hrows. specialize (Hall r' Hr').
  apply (row_minutes_In r x Hr) in Hx.
  apply (row_minutes_In r' y (Hrows r' Hr')) in Hy.
  apply (in_windows_bounds r x Hr) in Hx.
  apply (in_windows_bounds r' y (Hrows r' Hr')) in Hy.
  unfold row_before in Hall. lia.
Qed.

Lemma windows_of_one_row (rows : list Row) (i j : nat) (r r' : Row) (x : Timestamp) :
  Forall valid_row rows -> StronglySorted row_before rows ->
  nth_error rows i = Some r -> nth_error rows j = Some r' ->
  in_windows r x -> in_windows r' x -> i = j.
Proof.
  intros Hvalid Hsorted. revert i j.
  induction Hsorted as [|r0 rows Hs IH Hall]; intros i j Hi Hj Hx Hx'.
  - destruct i; discriminate.
  - inversion_clear Hvalid as [|? ? Hr0 Hrows].
    rewrite Forall_forall in Hall.
    assert (Hsep : forall b y y', In b rows -> valid_row b ->
                     in_windows r0 y -> in_windows b y' -> y < y').
    { intros b y y' Hb Hvb Hy Hy'. specialize (Hall b Hb).
      apply (in_windows_bounds r0 y Hr0) in Hy.
      apply (in_windows_bounds b y' Hvb) in Hy'. unfold row_before in Hall. lia. }
    rewrite Forall_forall in Hrows.
    destruct i as [|i], j as [|j]; cbn [nth_error] in Hi, Hj.
    + reflexivity.
    + injection Hi as <-. apply nth_error_In in Hj.
      pose proof (Hsep r' x x Hj (Hrows r' Hj) Hx Hx'). lia.
    + injection Hj as <-. apply nth_error_In in Hi.
      pose proof (Hsep r x x Hi (Hrows r Hi) Hx' Hx). lia.
    + f_equal. apply IH; auto. apply Forall_forall. exact Hrows.
Qed.

Lemma StronglySorted_nth_error {A : Type} (R : A -> A -> Prop) (l : list A)
    (i j : nat) (a b : A) :
  StronglySorted R l -> nth_error l i = Some a -> nth_error l j = Some b ->
  (i < j)%nat -> R a b.
Proof.
  intros Hs. revert i j. induction Hs as [|x l Hs IH Hall]; intros i j Hi Hj Hlt.
  - destruct i; discriminate.
  - destruct j as [|j]; [lia|]. cbn [nth_error] in Hj.
    destruct i as [|i]; cbn [nth_error] in Hi.
    + injection Hi as <-. rewrite Forall_forall in Hall.
      apply Hall. eapply nth_error_In; exact Hj.
    + apply (IH i j Hi Hj). lia.
Qed.

Lemma StronglySorted_map_in {A B : Type} (R : A -> A -> Prop) (R' : B -> B -> Prop)
    (f : A -> B) (l : list A) :
  StronglySorted R l ->
  (forall x y, In x l -> In y l -> R x y -> R' (f x) (f y)) ->
  StronglySorted R' (map f l).
Proof.
  induction 1 as [|a l Hs IH Hall]; intros Hf; cbn [map]; constructor.
  - apply IH. intros x y Hx Hy. apply Hf; now right.
  - apply Forall_forall. intros y Hy. apply in_map_iff in Hy as (x & <- & Hx).
    rewrite Forall_forall in Hall. apply Hf; [now left | now right | now apply Hall].
Qed.

(** The minute grid of a table whose rows are in order: every span a whole
    number of minutes, the break after the morning, each session closed
    before the next one opens. *)
Theorem minute_grid_of_valid_rows (rows : list Row) (sched : DataFrame.t) :
  Forall valid_row rows -> StronglySorted row_before rows ->
  exists grid,
    all_minutes (rows_calendar rows sched) = Ok (map Some grid)
    /\ StronglySorted Z.lt grid /\ NoDup grid
    /\ Z.of_nat (length grid)
       = fold_right Z.add 0 (map (fun r => before_size r + after_size r) rows)
    /\ (forall x, In x grid <-> exists r, In r rows /\ in_windows r x)
    /\ (forall x i j r r',
          nth_error rows i = Some r -> nth_error rows j = Some r' ->
          in_windows r x -> in_windows r' x -> i = j)
    /\ (forall x r, In x grid -> In r rows ->
          ~ (row_break_start r < x < row_break_end r)).
Proof.
  intros Hvalid Hsorted. exists (flat_map row_minutes rows).
  pose proof (grid_sorted rows Hvalid Hsorted) as Hgs.
  assert (Hin : forall x, In x (flat_map row_minutes rows) <->
                          exists r, In r rows /\ in_windows r x).
  { intros x. rewrite in_flat_map. rewrite Forall_forall in Hvalid.
    split; intros (r & Hr & Hx); exists r; (split; [exact Hr|]);
      now apply (row_minutes_In r x (Hvalid r Hr)). }
  split; [now apply all_minutes_rows|].
  split; [exact Hgs|].
  split; [now apply StronglySorted_lt_NoDup|].
  split; [symmetry; now apply sum_sizes|].
  split; [exact Hin|].
  split; [intros x i j r r'; now apply windows_of_one_row|].
  intros x r Hx Hr Hbreak. apply Hin in Hx as (r' & Hr' & Hx).
  pose proof Hvalid as Hv. rewrite Forall_forall in Hv.
  destruct (In_nth_error _ _ Hr) as [i Hi].
  destruct (In_nth_error _ _ Hr') as [j Hj].
  pose proof (in_windows_bounds r' x (Hv r' Hr') Hx) as [Hb' Hnb'].
  destruct (Hv r Hr) as ((kb & Hkb & Ebs) & Hlt & (ka & Hka & Ecl)).
  destruct (Nat.lt_total i j) as [Hij|[Hij|Hij]].
  - pose proof (StronglySorted_nth_error _ _ _ _ _ _ Hsorted Hi Hj Hij) as H.
    unfold row_before in H. nanos. lia.
  - subst j. assert (r' = r) by congruence. subst r'. exact (Hnb' Hbreak).
  - pose proof (StronglySorted_nth_error _ _ _ _ _ _ Hsorted Hj Hi Hij) as H.
    unfold row_before in H. nanos. lia.
Qed.

Lemma default_rows_valid (end_base : Timestamp) (adhoc_holidays : list Timestamp) :
  Forall valid_row (default_rows end_base adhoc_holidays).
Proof.
  apply Forall_forall. intros r Hr. apply in_map_iff in Hr as (d & <- & _).
  destruct (default_spans d) as [H1 H2].
  unfold valid_row, whole_span.
  cbn [row_open row_break_start row_break_end row_close].
  split; [exists 119; split; lia|].
  split; [apply at_utc8_ordered|]. exists 119. split; lia.
Qed.

Lemma default_rows_sorted (end_base : Timestamp) (adhoc_holidays : list Timestamp) :
  StronglySorted row_before (default_rows end_base adhoc_holidays).
Proof.
  unfold default_rows.
  apply (StronglySorted_map_in Z.lt); [apply date_range_sorted|].
  intros d d' Hd Hd' Hlt. unfold row_before. cbn [row_open row_close].
  apply date_range_In in Hd as [(k & _ & -> & _) _].
  apply date_range_In in Hd' as [(k' & _ & -> & _) _].
  unfold at_utc8, Timedelta. cbn [hour minute second open_times close_times].
  nanos. lia.
Qed.

(** ** The loop of [all_minutes] on rows that are out of step *)

Lemma slice_index_bounds (i len : Z) :
  0 <= len -> 0 <= slice_index i len <= len.
Proof.
  intros H. unfold slice_index. destruct (Z.ltb_spec i 0); lia.
Qed.

Lemma setslice_length (buf : list (option Z)) (lo hi : Z) (src : list Z)
    (buf' : list (option Z)) :
  setslice buf lo hi src = Ok buf' -> length buf' = length buf.
Proof.
  unfold setslice.
  pose proof (slice_index_bounds lo (Z.of_nat (length buf)) ltac:(lia)) as Hlo.
  pose proof (slice_index_bounds hi (Z.of_nat (length buf)) ltac:(lia)) as Hhi.
  set (lo' := slice_index lo (Z.of_nat (length buf))) in *.
  set (hi' := slice_index hi (Z.of_nat (length buf))) in *.
  destruct (Nat.eqb_spec (length src) (Z.to_nat (hi' - lo'))) as [E|E].
  - intros [= <-]. rewrite !length_app, length_map, length_firstn, length_skipn. lia.
  - destruct src as [|x [|y src]]; try discriminate.
    intros [= <-]. rewrite !length_app, repeat_length, length_firstn, length_skipn.
    lia.
Qed.

Lemma setslice_Raise (buf : list (option Z)) (lo hi : Z) (src : list Z) :
  length src
  <> Z.to_nat (slice_index hi (Z.of_nat (length buf))
               - slice_index lo (Z.of_nat (length buf))) ->
  length src <> 1%nat ->
  setslice buf lo hi src = Raise ValueError.
Proof.
  intros H1 H2. unfold setslice.
  destruct (Nat.eqb_spec (length src)
              (Z.to_nat (slice_index hi (Z.of_nat (length buf))
                         - slice_index lo (Z.of_nat (length buf)))));
    [contradiction|].
  destruct src as [|x [|y src]]; try reflexivity. now elim H2.
Qed.

Lemma fill_length (o c bs be bf af sizes : list Z) (k : nat) (idx : Z)
    (buf buf' : list (option Z)) :
  fill o c bs be bf af sizes k idx buf = Ok buf' -> length buf' = length buf.
Proof.
  revert k idx buf. induction sizes as [|size sizes IH]; intros k idx buf.
  - intros [= <-]. reflexivity.
  - cbn [fill]. intros H.
    apply bind_Ok in H as (b & _ & H). apply bind_Ok in H as (a & _ & H).
    apply bind_Ok in H as (x1 & _ & H). apply bind_Ok in H as (x2 & _ & H).
    apply bind_Ok in H as (buf1 & H1 & H).
    apply bind_Ok in H as (x3 & _ & H). apply bind_Ok in H as (x4 & _ & H).
    apply bind_Ok in H as (buf2 & H2 & H).
    apply IH in H. apply setslice_length in H1, H2. congruence.
Qed.

Lemma bind_assoc {A B C} (r : result A) (f : A -> result B) (g : B -> result C) :
  bind (bind r f) g = bind r (fun a => bind (f a) g).
Proof. destruct r; reflexivity. Qed.

Lemma bind_ext {A B} (r : result A) (f g : A -> result B) :
  (forall a, f a = g a) -> bind r f = bind r g.
Proof. intros H. destruct r; simpl; [apply H | reflexivity]. Qed.

Lemma fill_app (o c bs be bf af s1 s2 : list Z) (k : nat) (idx : Z)
    (buf : list (option Z)) :
  fill o c bs be bf af (s1 ++ s2) k idx buf
  = (buf' <- fill o c bs be bf af s1 k idx buf ;;
     fill o c bs be bf af s2 (k + length s1) (idx + fold_right Z.add 0 s1) buf').
Proof.
  revert k idx buf. induction s1 as [|size s1 IH]; intros k idx buf.
  - cbn [app fill bind length fold_right]. now rewrite Nat.add_0_r, Z.add_0_r.
  - cbn [app fill length fold_right].
    do 8 (rewrite bind_assoc; apply bind_ext; intros ?; cbv beta).
    rewrite IH, Nat.add_succ_r, Z.add_assoc. reflexivity.
Qed.

Lemma mixed_row_sizes (b k : Z) :
  before_size (mixed_row (b + k * NANOS_IN_DAY) b) = 120 + 1440 * k
  /\ after_size (mixed_row (b + k * NANOS_IN_DAY) b) = 120 - 1440 * k
  /\ length (arange (row_open (mixed_row (b + k * NANOS_IN_DAY) b))
                    (row_break_start (mixed_row (b + k * NANOS_IN_DAY) b)
                     + NANOS_IN_MINUTE) NANOS_IN_MINUTE)
     = Z.to_nat (120 + 1440 * k)
  /\ length (arange (row_break_end (mixed_row (b + k * NANOS_IN_DAY) b))
                    (row_close (mixed_row (b + k * NANOS_IN_DAY) b)
                     + NANOS_IN_MINUTE) NANOS_IN_MINUTE)
     = Z.to_nat (120 - 1440 * k).
Proof.
  unfold before_size, after_size, mixed_row, span_size.
  cbn [row_open row_break_start row_break_end row_close].
  rewrite !arange_length. unfold at_utc8, Timedelta.
  cbn [hour minute second open_times close_times lunch_break_start lunch_break_end].
  nanos. unfold NANOS_IN_SECOND.
  replace (b + k * 86400000000000 + (0 * 86400000000000 + 11 * 3600000000000
             + 30 * 60000000000 + 0 * 1000000000) - 8 * 3600000000000
           - (b + (0 * 86400000000000 + 9 * 3600000000000 + 31 * 60000000000
                   + 0 * 1000000000) - 8 * 3600000000000))
    with ((119 + 1440 * k) * 60000000000) by lia.
  replace (b + (0 * 86400000000000 + 15 * 3600000000000 + 0 * 60000000000
                + 0 * 1000000000) - 8 * 3600000000000
           - (b + k * 86400000000000 + (0 * 86400000000000 + 13 * 3600000000000
                + 1 * 60000000000 + 0 * 1000000000) - 8 * 3600000000000))
    with ((119 - 1440 * k) * 60000000000) by lia.
  replace (b + (0 * 86400000000000 + 9 * 3600000000000 + 31 * 60000000000
                + 0 * 1000000000) - 8 * 3600000000000
           - (b + k * 86400000000000 + (0 * 86400000000000 + 11 * 3600000000000
                + 30 * 60000000000 + 0 * 1000000000) - 8 * 3600000000000
              + 60000000000))
    with (- (120 + 1440 * k) * 60000000000) by lia.
  replace (b + k * 86400000000000 + (0 * 86400000000000 + 13 * 3600000000000
             + 1 * 60000000000 + 0 * 1000000000) - 8 * 3600000000000
           - (b + (0 * 86400000000000 + 15 * 3600000000000 + 0 * 60000000000
                   + 0 * 1000000000) - 8 * 3600000000000 + 60000000000))
    with (- (120 - 1440 * k) * 60000000000) by lia.
  rewrite !Z.quot_mul, !Z.div_mul by lia.
  repeat split; try lia; f_equal; lia.
Qed.

Lemma sum_const (A : Type) (f : A -> Z) (l : list A) (n : Z) :
  Forall (fun x => f x = n) l ->
  fold_right Z.add 0 (map f l) = n * Z.of_nat (length l).
Proof.
  induction 1 as [|x l Hx _ IH]; [simpl; lia|].
  cbn [map fold_right length]. rewrite IH, Hx. lia.
Qed.

(** A first row whose break is that of an earlier day than its open and
    close: the slice before the break is empty at best, and the slice
    after it, at most 240 cells, is too short for the ticks from the break
    end to the close. *)
Lemma fill_first_early (b k : Z) (rest : list Row) (sizes : list Z)
    (buf g : list (option Z)) :
  k < 0 -> 240 <= Z.of_nat (length buf) ->
  fill_from (mixed_row (b + k * NANOS_IN_DAY) b :: rest) (240 :: sizes) 0 0 buf
  <> Ok g.
Proof.
  intros Hk Hlen H. unfold fill_from in H. cbn [map fill getitem nth_error bind] in H.
  destruct (mixed_row_sizes b k) as (Hb & Ha & Hlb & Hla).
  apply bind_Ok in H as (buf1 & H1 & H).
  apply setslice_length in H1.
  rewrite setslice_Raise in H; [discriminate H| |].
  - rewrite Hla, H1.
    pose proof (slice_index_bounds
                  (0 + before_size (mixed_row (b + k * NANOS_IN_DAY) b))
                  (Z.of_nat (length buf)) ltac:(lia)).
    assert (slice_index (0 + 240) (Z.of_nat (length buf)) = 240)
      by (unfold slice_index; cbn; lia).
    lia.
  - rewrite Hla. lia.
Qed.

(** A last row whose break is that of a later day than its open and close:
    the slice before the break is cut at the end of the buffer, 240 cells,
    too short for the ticks from the open to the break start. *)
Lemma fill_last_late (b k : Z) (pre : list Row) (buf g : list (option Z)) :
  0 < k ->
  Forall (fun r => before_size r + after_size r = 240) pre ->
  Z.of_nat (length buf) = 240 * Z.of_nat (length pre + 1) ->
  fill_from (pre ++ [mixed_row (b + k * NANOS_IN_DAY) b])
            (map (fun r => before_size r + after_size r)
                 (pre ++ [mixed_row (b + k * NANOS_IN_DAY) b])) 0 0 buf
  <> Ok g.
Proof.
  intros Hk Hpre Hlen H. unfold fill_from in H.
  rewrite (map_app (fun r => before_size r + after_size r)), fill_app in H.
  apply bind_Ok in H as (buf1 & H1 & H).
  apply fill_length in H1.
  rewrite length_map, (sum_const _ _ _ 240 Hpre) in H.
  cbn [map fill] in H. cbn [Nat.add] in H.
  rewrite !getitem_middle in H. cbn [bind] in H.
  destruct (mixed_row_sizes b k) as (Hb & Ha & Hlb & Hla).
  rewrite setslice_Raise in H; [discriminate H| |].
  - rewrite Hlb, Hb, H1, Hlen. unfold slice_index.
    destruct (Z.ltb_spec (0 + 240 * Z.of_nat (length pre)
                          + (120 + 1440 * k)) 0); [lia|].
    destruct (Z.ltb_spec (0 + 240 * Z.of_nat (length pre)) 0); lia.
  - rewrite Hlb. lia.
Qed.

(** ** Construction *)

Lemma map_fst_combine_eq {A B C : Type} (f : A -> C) (l1 : list A) (l2 : list B) :
  length l1 = length l2 ->
  map (fun p => f (fst p)) (combine l1 l2) = map f l1.
Proof.
  revert l2; induction l1 as [|a l1 IH]; intros [|b l2] H; simpl in *;
    try reflexivity; try discriminate.
  now rewrite IH by congruence.
Qed.

Lemma map_snd_combine_eq {A B C : Type} (f : B -> C) (l1 : list A) (l2 : list B) :
  length l1 = length l2 ->
  map (fun p => f (snd p)) (combine l1 l2) = map f l2.
Proof.
  revert l2; induction l1 as [|a l1 IH]; intros [|b l2] H; simpl in *;
    try reflexivity; try discriminate.
  now rewrite IH by congruence.
Qed.

Lemma combine_snoc {A B : Type} (l1 : list A) (l2 : list B) (a : A) (b : B) :
  length l1 = length l2 ->
  combine (l1 ++ [a]) (l2 ++ [b]) = combine l1 l2 ++ [(a, b)].
Proof.
  revert l2; induction l1 as [|x l1 IH]; intros [|y l2] H; simpl in *;
    try reflexivity; try discriminate.
  now rewrite IH by congruence.
Qed.

Lemma StronglySorted_lt_last (l : list Z) (a x : Z) :
  StronglySorted Z.lt (l ++ [a]) -> In x (l ++ [a]) -> x <= a.
Proof.
  induction l as [|y l IH]; cbn [app]; intros Hs Hx.
  - destruct Hx as [<-|[]]. lia.
  - inversion_clear Hs as [|? ? Hs' Hall]. destruct Hx as [<-|Hx].
    + rewrite Forall_forall in Hall.
      specialize (Hall a ltac:(apply in_or_app; right; now left)). lia.
    + now apply IH.
Qed.

Lemma StronglySorted_lt_head (l : list Z) (a x : Z) :
  StronglySorted Z.lt (a :: l) -> In x (a :: l) -> a <= x.
Proof.
  intros Hs Hx. inversion_clear Hs as [|? ? _ Hall]. destruct Hx as [<-|Hx]; [lia|].
  rewrite Forall_forall in Hall. specialize (Hall x Hx). lia.
Qed.

(** Two strictly ascending lists with the same elements are equal. *)
Lemma StronglySorted_lt_unique (l1 l2 : list Z) :
  StronglySorted Z.lt l1 -> StronglySorted Z.lt l2 ->
  (forall x, In x l1 <-> In x l2) -> l1 = l2.
Proof.
  intros H1. revert l2. induction H1 as [|a l1 Hs1 IH Hall1]; intros l2 H2 Hin.
  - destruct l2 as [|b l2]; [reflexivity|].
    destruct (proj2 (Hin b) (or_introl eq_refl)).
  - destruct l2 as [|b l2]; [destruct (proj1 (Hin a) (or_introl eq_refl))|].
    inversion_clear H2 as [|? ? Hs2 Hall2].
    rewrite Forall_forall in Hall1, Hall2.
    assert (a = b).
    { destruct (proj1 (Hin a) (or_introl eq_refl)) as [E|Ha]; [now symmetry|].
      destruct (proj2 (Hin b) (or_introl eq_refl)) as [E|Hb]; [exact E|].
      specialize (Hall1 b Hb). specialize (Hall2 a Ha). lia. }
    subst b. f_equal. apply IH; [exact Hs2|].
    intros x. split; intros Hx.
    + destruct (proj1 (Hin x) (or_intror Hx)) as [E|Hx']; [|exact Hx'].
      specialize (Hall1 x Hx). lia.
    + destruct (proj2 (Hin x) (or_intror Hx)) as [E|Hx']; [|exact Hx'].
      specialize (Hall2 x Hx). lia.
Qed.

Lemma date_range_whole_day (start end_ : Timestamp) (freq : CustomBusinessDay)
    (x : Timestamp) :
  (NANOS_IN_DAY | start) -> In x (date_range start end_ freq) ->
  (NANOS_IN_DAY | x).
Proof.
  intros Hs Hx. apply date_range_In in Hx as [(k & _ & -> & _) _].
  apply Z.divide_add_r; [exact Hs|]. apply Z.divide_mul_r, Z.divide_refl.
Qed.

Lemma start_default_whole_day : (NANOS_IN_DAY | start_default).
Proof. exists (start_default / NANOS_IN_DAY). vm_compute. reflexivity. Qed.

(** What [all_minutes] computes on a calendar given by its rows. *)
Lemma all_minutes_rows_eq (rows : list Row) (sched : DataFrame.t) :
  all_minutes (rows_calendar rows sched)
  = (buf <- np_empty (fold_right Z.add 0
                        (map (fun r => before_size r + after_size r) rows)) ;;
     fill_from rows (map (fun r => before_size r + after_size r) rows) 0 0 buf).
Proof.
  unfold all_minutes.
  rewrite rows_calendar_before_sizes, rows_calendar_after_sizes,
    rows_calendar_daily_sizes.
  reflexivity.
Qed.

Section Construction.

Variable end_base : Timestamp.
Variable adhoc_holidays : list Timestamp.

(** [all_minutes] reads the four series, not the table. *)
Lemma all_minutes_schedule (lbs lbe opens closes : list Timestamp)
    (s1 s2 : DataFrame.t) :
  all_minutes (mk_calendar lbs lbe opens closes s1)
  = all_minutes (mk_calendar lbs lbe opens closes s2).
Proof. reflexivity. Qed.

Lemma TradingCalendar_init_eq (lbs lbe : list Timestamp) (start end_ : Timestamp) :
  TradingCalendar_init adhoc_holidays lbs lbe start end_
  = (_ <- all_minutes
            (mk_calendar lbs lbe
               (map (at_utc8 open_times) (sessions_of adhoc_holidays start end_))
               (map (at_utc8 close_times) (sessions_of adhoc_holidays start end_))
               (DataFrame.mk (sessions_of adhoc_holidays start end_)
                  (map (at_utc8 open_times) (sessions_of adhoc_holidays start end_))
                  (map (at_utc8 close_times) (sessions_of adhoc_holidays start end_))
                  [] [])) ;;
     Ok (map (at_utc8 open_times) (sessions_of adhoc_holidays start end_),
         map (at_utc8 close_times) (sessions_of adhoc_holidays start end_))).
Proof.
  unfold TradingCalendar_init. rewrite !days_at_time_Shanghai. reflexivity.
Qed.

(** What [__init__] does: the lunch-break series and the index come from
    the requested range, the open and close series from the default range;
    the base constructor evaluates [all_minutes] on the four series, and
    the table is built last. *)
Lemma init_eq (start end_ : Timestamp) :
  init end_base adhoc_holidays start end_
  = (_ <- all_minutes
            (mk_calendar
               (map (at_utc8 lunch_break_start) (sessions_of adhoc_holidays start end_))
               (map (at_utc8 lunch_break_end) (sessions_of adhoc_holidays start end_))
               (map (at_utc8 open_times) (base_sessions end_base adhoc_holidays))
               (map (at_utc8 close_times) (base_sessions end_base adhoc_holidays))
               (DataFrame.mk (base_sessions end_base adhoc_holidays)
                  (map (at_utc8 open_times) (base_sessions end_base adhoc_holidays))
                  (map (at_utc8 close_times) (base_sessions end_base adhoc_holidays))
                  [] [])) ;;
     sched <- DataFrame.new (sessions_of adhoc_holidays start end_)
                (map (at_utc8 open_times) (base_sessions end_base adhoc_holidays))
                (map (at_utc8 close_times) (base_sessions end_base adhoc_holidays))
                (map (at_utc8 lunch_break_start) (sessions_of adhoc_holidays start end_))
                (map (at_utc8 lunch_break_end) (sessions_of adhoc_holidays start end_)) ;;
     Ok (mk_calendar
           (map (at_utc8 lunch_break_start) (sessions_of adhoc_holidays start end_))
           (map (at_utc8 lunch_break_end) (sessions_of adhoc_holidays start end_))
           (map (at_utc8 open_times) (base_sessions end_base adhoc_holidays))
           (map (at_utc8 close_times) (base_sessions end_base adhoc_holidays))
           sched)).
Proof.
  unfold init. rewrite !days_at_time_Shanghai. cbn [bind].
  rewrite TradingCalendar_init_eq. rewrite bind_assoc. reflexivity.
Qed.

Lemma DataFrame_new_Ok (idx mo mc lbs lbe : list Timestamp) (df : DataFrame.t) :
  DataFrame.new idx mo mc lbs lbe = Ok df ->
  df = DataFrame.mk idx mo mc lbs lbe
  /\ length mo = length idx /\ length mc = length idx
  /\ length lbs = length idx /\ length lbe = length idx.
Proof.
  unfold DataFrame.new.
  destruct (length mo =? length idx)%nat eqn:E1; [|discriminate].
  destruct (length mc =? length idx)%nat eqn:E2; [|discriminate].
  destruct (length lbs =? length idx)%nat eqn:E3; [|discriminate].
  destruct (length lbe =? length idx)%nat eqn:E4; [|discriminate].
  cbn [andb]. intros [= <-].
  apply Nat.eqb_eq in E1, E2, E3, E4. auto.
Qed.

Lemma DataFrame_new_same_length (idx mo mc lbs lbe : list Timestamp) :
  length mo = length idx -> length mc = length idx ->
  length lbs = length idx -> length lbe = length idx ->
  DataFrame.new idx mo mc lbs lbe = Ok (DataFrame.mk idx mo mc lbs lbe).
Proof.
  intros H1 H2 H3 H4. unfold DataFrame.new.
  rewrite H1, H2, H3, H4, !Nat.eqb_refl. reflexivity.
Qed.

Lemma init_Ok (start end_ : Timestamp) (c : SHSZExchangeCalendar) :
  init end_base adhoc_holidays start end_ = Ok c ->
  length (base_sessions end_base adhoc_holidays) = length (sessions_of adhoc_holidays start end_)
  /\ c = mk_calendar
           (map (at_utc8 lunch_break_start) (sessions_of adhoc_holidays start end_))
           (map (at_utc8 lunch_break_end) (sessions_of adhoc_holidays start end_))
           (map (at_utc8 open_times) (base_sessions end_base adhoc_holidays))
           (map (at_utc8 close_times) (base_sessions end_base adhoc_holidays))
           (DataFrame.mk (sessions_of adhoc_holidays start end_)
              (map (at_utc8 open_times) (base_sessions end_base adhoc_holidays))
              (map (at_utc8 close_times) (base_sessions end_base adhoc_holidays))
              (map (at_utc8 lunch_break_start) (sessions_of adhoc_holidays start end_))
              (map (at_utc8 lunch_break_end) (sessions_of adhoc_holidays start end_))).
Proof.
  rewrite init_eq. intros H. apply bind_Ok in H as (g & _ & H).
  apply bind_Ok in H as (df & Hdf & [= <-]).
  apply DataFrame_new_Ok in Hdf as (-> & H1 & _).
  rewrite length_map in H1. split; [exact H1 | reflexivity].
Qed.

(** The series of a constructed calendar, row by row. *)
Lemma init_Ok_rows (start end_ : Timestamp) (c : SHSZExchangeCalendar) :
  init end_base adhoc_holidays start end_ = Ok c ->
  c = rows_calendar (mixed_rows end_base adhoc_holidays start end_) (schedule c).
Proof.
  intros H. apply init_Ok in H as [Hlen ->]. cbn [schedule].
  unfold rows_calendar, mixed_rows, paired_sessions, mixed_row.
  rewrite !map_map. cbn [row_open row_break_start row_break_end row_close].
  rewrite !map_fst_combine_eq, !map_snd_combine_eq by (symmetry; exact Hlen).
  reflexivity.
Qed.

(** The base constructor has evaluated [all_minutes] on the series of
    every constructed calendar. *)
Lemma init_Ok_all_minutes (start end_ : Timestamp) (c : SHSZExchangeCalendar) :
  init end_base adhoc_holidays start end_ = Ok c ->
  exists g, all_minutes c = Ok g.
Proof.
  intros H. destruct (init_Ok _ _ _ H) as [_ ->].
  rewrite init_eq in H. apply bind_Ok in H as (g & Hg & _).
  exists g. rewrite <- Hg. reflexivity.
Qed.

(** With the default arguments the constructor returns. *)
Lemma init_default :
  init end_base adhoc_holidays start_default (end_default end_base)
  = Ok (mk_calendar
          (map (at_utc8 lunch_break_start) (base_sessions end_base adhoc_holidays))
          (map (at_utc8 lunch_break_end) (base_sessions end_base adhoc_holidays))
          (map (at_utc8 open_times) (base_sessions end_base adhoc_holidays))
          (map (at_utc8 close_times) (base_sessions end_base adhoc_holidays))
          (DataFrame.mk (base_sessions end_base adhoc_holidays)
             (map (at_utc8 open_times) (base_sessions end_base adhoc_holidays))
             (map (at_utc8 close_times) (base_sessions end_base adhoc_holidays))
             (map (at_utc8 lunch_break_start) (base_sessions end_base adhoc_holidays))
             (map (at_utc8 lunch_break_end) (base_sessions end_base adhoc_holidays)))).
Proof.
  rewrite init_eq. fold (base_sessions end_base adhoc_holidays).
  pose proof (all_minutes_rows (default_rows end_base adhoc_holidays)
                (DataFrame.mk (base_sessions end_base adhoc_holidays)
                   (map (at_utc8 open_times) (base_sessions end_base adhoc_holidays))
                   (map (at_utc8 close_times) (base_sessions end_base adhoc_holidays))
                   [] [])
                (default_rows_valid _ _)) as Hgrid.
  unfold rows_calendar, default_rows in Hgrid. rewrite !map_map in Hgrid.
  cbn [row_open row_break_start row_break_end row_close] in Hgrid.
  change (fun x : Timestamp => at_utc8 ?t x) with (at_utc8 t) in Hgrid.
  rewrite Hgrid. cbn [bind].
  rewrite DataFrame_new_same_length by (now rewrite !length_map).
  reflexivity.
Qed.

Lemma mixed_rows_sizes (start end_ : Timestamp) :
  (NANOS_IN_DAY | start) ->
  Forall (fun r => before_size r + after_size r = 240)
         (mixed_rows end_base adhoc_holidays start end_).
Proof.
  intros Hstart. apply Forall_forall. intros r Hr.
  apply in_map_iff in Hr as ([d b] & <- & Hp). cbn [fst snd].
  pose proof (in_combine_l _ _ _ _ Hp) as Hd.
  pose proof (in_combine_r _ _ _ _ Hp) as Hb.
  apply (date_range_whole_day _ _ _ _ Hstart) in Hd as [qd ->].
  apply (date_range_whole_day _ _ _ _ start_default_whole_day) in Hb as [qb ->].
  replace (qd * NANOS_IN_DAY) with (qb * NANOS_IN_DAY + (qd - qb) * NANOS_IN_DAY)
    by lia.
  destruct (mixed_row_sizes (qb * NANOS_IN_DAY) (qd - qb)) as (-> & -> & _). lia.
Qed.

(** A constructed calendar whose range starts on a calendar date has the
    sessions of the default range: on any other sessions, the evaluation of
    [all_minutes] by the base constructor, or the table, raises. *)
Lemma init_Ok_sessions (start end_ : Timestamp) (c : SHSZExchangeCalendar) :
  (NANOS_IN_DAY | start) ->
  init end_base adhoc_holidays start end_ = Ok c ->
  sessions_of adhoc_holidays start end_ = base_sessions end_base adhoc_holidays.
Proof.
  intros Hstart Hinit.
  destruct (init_Ok_all_minutes _ _ _ Hinit) as [g Hg].
  rewrite (init_Ok_rows _ _ _ Hinit), all_minutes_rows_eq in Hg.
  destruct (init_Ok _ _ _ Hinit) as [Hlen _]. clear Hinit c.
  pose proof (mixed_rows_sizes start end_ Hstart) as Hsizes.
  rewrite (sum_const _ _ _ 240 Hsizes) in Hg.
  unfold np_empty in Hg.
  destruct (Z.ltb_spec (240 * Z.of_nat (length (mixed_rows end_base adhoc_holidays
                                                   start end_))) 0) as [Hneg|_];
    [lia|].
  cbn [bind] in Hg.
  assert (HsS : StronglySorted Z.lt (sessions_of adhoc_holidays start end_))
    by apply date_range_sorted.
  assert (HsB : StronglySorted Z.lt (base_sessions end_base adhoc_holidays))
    by apply date_range_sorted.
  assert (HS : forall x, In x (sessions_of adhoc_holidays start end_) ->
                         (NANOS_IN_DAY | x)
                         /\ is_on_offset (day adhoc_holidays) x = true).
  { intros x Hx. split; [exact (date_range_whole_day _ _ _ _ Hstart Hx)|].
    now apply date_range_In in Hx. }
  assert (HB : forall x, In x (base_sessions end_base adhoc_holidays) <->
                         AllDates start_default (end_default end_base) x
                         /\ is_on_offset (day adhoc_holidays) x = true)
    by (intros x; apply date_range_In).
  assert (HBd : forall x, In x (base_sessions end_base adhoc_holidays) ->
                          (NANOS_IN_DAY | x))
    by (intros x; apply date_range_whole_day, start_default_whole_day).
  unfold mixed_rows, paired_sessions in Hg, Hsizes.
  destruct (sessions_of adhoc_holidays start end_) as [|s0 S] eqn:ES.
  { destruct (base_sessions end_base adhoc_holidays); [reflexivity|discriminate]. }
  destruct (base_sessions end_base adhoc_holidays) as [|b0 B] eqn:EB;
    [discriminate|].
  (* the first row *)
  destruct (proj1 (HS s0 (or_introl eq_refl))) as [q0 Hq0].
  destruct (HBd b0 (or_introl eq_refl)) as [p0 Hp0].
  assert (H0 : b0 <= s0).
  { destruct (Z.lt_ge_cases s0 b0) as [Hlt|Hge]; [exfalso|lia].
    cbn [combine map fst snd] in Hg, Hsizes.
    inversion_clear Hsizes as [|? ? Hsz _]. rewrite Hsz in Hg.
    replace s0 with (b0 + (q0 - p0) * NANOS_IN_DAY) in Hg by lia.
    revert Hg. apply fill_first_early; [nanos; lia|].
    rewrite repeat_length. cbn [length]. lia. }
  assert (Hhead : forall x, In x (s0 :: S) -> s0 <= x)
    by (intros x; apply StronglySorted_lt_head, HsS).
  assert (Hb0 : start_default <= b0).
  { destruct (proj1 (HB b0) (or_introl eq_refl)) as [(k0 & Hk0 & -> & _) _].
    nanos. lia. }
  (* the last row *)
  destruct (exists_last (l := s0 :: S) ltac:(discriminate)) as (S' & sl & ES').
  destruct (exists_last (l := b0 :: B) ltac:(discriminate)) as (B' & bl & EB').
  rewrite ES', EB' in *. clear ES' EB'.
  assert (Hlen' : length S' = length B').
  { rewrite !length_app in Hlen. cbn [length] in Hlen. lia. }
  destruct (proj1 (HS sl ltac:(apply in_or_app; right; now left))) as [ql Hql].
  destruct (HBd bl ltac:(apply in_or_app; right; now left)) as [pl Hpl].
  assert (Hl : sl <= bl).
  { destruct (Z.lt_ge_cases bl sl) as [Hlt|Hge]; [exfalso|lia].
    rewrite combine_snoc, map_app in Hg, Hsizes by exact Hlen'.
    cbn [map fst snd] in Hg, Hsizes.
    apply Forall_app in Hsizes as [Hpre _].
    replace sl with (bl + (ql - pl) * NANOS_IN_DAY) in Hg by lia.
    revert Hg. apply fill_last_late; [nanos; lia|exact Hpre|].
    rewrite repeat_length, !length_app. cbn [length]. lia. }
  (* the sessions between *)
  apply StronglySorted_lt_unique; [exact HsS|exact HsB|].
  assert (Hincl : incl (S' ++ [sl]) (B' ++ [bl])).
  { intros x Hx. apply HB. split; [|now apply HS].
    pose proof (StronglySorted_lt_last _ _ _ HsS Hx) as Hxl.
    pose proof (Hhead x Hx) as Hx0.
    destruct (proj1 (HS x Hx)) as [qx Hqx].
    destruct (proj1 (HB bl) ltac:(apply in_or_app; right; now left))
      as [(_ & _ & _ & Hble) _].
    destruct start_default_whole_day as [qs Hqs].
    exists (qx - qs). split; [nanos; lia|]. split; lia. }
  intros x. split; [apply Hincl|].
  apply NoDup_length_incl; [apply StronglySorted_lt_NoDup, HsS| |exact Hincl].
  rewrite !length_app. cbn [length]. lia.
Qed.

(** The constructor reads its arguments through the sessions of the range
    only. *)
Lemma init_sessions_ext (start1 end1 start2 end2 : Timestamp) :
  sessions_of adhoc_holidays start1 end1 = sessions_of adhoc_holidays start2 end2 ->
  init end_base adhoc_holidays start1 end1 = init end_base adhoc_holidays start2 end2.
Proof. intros E. rewrite !init_eq, E. reflexivity. Qed.

(** The calendar of a range that starts on a calendar date is the one the
    default arguments give. *)
Lemma init_date_range (start end_ : Timestamp) (c : SHSZExchangeCalendar) :
  (NANOS_IN_DAY | start) ->
  init end_base adhoc_holidays start end_ = Ok c ->
  init end_base adhoc_holidays start_default (end_default end_base) = Ok c.
Proof.
  intros Hstart H. pose proof (init_Ok_sessions _ _ _ Hstart H) as E.
  rewrite init_eq in H |- *. rewrite E in H. exact H.
Qed.

(** The call of the base constructor that a constructed calendar has gone
    through. *)
Lemma TradingCalendar_init_Ok (start end_ : Timestamp) (c : SHSZExchangeCalendar) :
  init end_base adhoc_holidays start end_ = Ok c ->
  TradingCalendar_init adhoc_holidays (_lunch_break_starts c)
    (_lunch_break_ends c) start_default (end_default end_base)
  = Ok (_opens c, _closes c).
Proof.
  unfold init. intros H.
  apply bind_Ok in H as (lbs & _ & H). apply bind_Ok in H as (lbe & _ & H).
  apply bind_Ok in H as ([opens closes] & Hbase & H).
  apply bind_Ok in H as (sched & _ & [= <-]).
  exact Hbase.
Qed.

(** C1. The sessions of the range, which the constructor computes as
    [_all_days] and which a constructed calendar carries as the index of
    its schedule table, are strictly ascending, free of duplicates, and are
    exactly the dates of [start, end] that are neither Saturday nor Sunday
    nor a holiday. *)
Theorem sessions_are_the_business_days (start end_ : Timestamp) :
  StronglySorted Z.lt (sessions_of adhoc_holidays start end_)
  /\ NoDup (sessions_of adhoc_holidays start end_)
  /\ (forall x, In x (sessions_of adhoc_holidays start end_) <->
                AllDates start end_ x /\ ~ Weekends x
                /\ ~ Holidays adhoc_holidays x)
  /\ (forall c, init end_base adhoc_holidays start end_ = Ok c ->
                DataFrame.index (schedule c)
                = sessions_of adhoc_holidays start end_).
Proof.
  split; [apply date_range_sorted|].
  split; [apply StronglySorted_lt_NoDup, date_range_sorted|].
  split.
  - intros x. unfold sessions_of. rewrite date_range_In, is_on_offset_day. tauto.
  - intros c H. apply init_Ok in H as [_ ->]. reflexivity.
Qed.

(** C10. Whatever [start] and [end] are, the base calendar is initialised
    over [start_default .. end_default]: two constructed calendars have the
    same open and close series, those of the default range, while the
    lunch-break series and the schedule index are those of the requested
    range. *)
Theorem opens_closes_ignore_the_range (start1 end1 start2 end2 : Timestamp)
    (c1 c2 : SHSZExchangeCalendar) :
  init end_base adhoc_holidays start1 end1 = Ok c1 ->
  init end_base adhoc_holidays start2 end2 = Ok c2 ->
  _opens c1 = _opens c2 /\ _closes c1 = _closes c2
  /\ TradingCalendar_init adhoc_holidays (_lunch_break_starts c1)
       (_lunch_break_ends c1) start_default (end_default end_base)
     = Ok (_opens c1, _closes c1)
  /\ DataFrame.market_open (schedule c1) = DataFrame.market_open (schedule c2)
  /\ DataFrame.market_close (schedule c1) = DataFrame.market_close (schedule c2)
  /\ DataFrame.index (schedule c1) = date_range start1 end1 (day adhoc_holidays)
  /\ days_at_time (date_range start1 end1 (day adhoc_holidays))
       lunch_break_start tz 0 = Ok (_lunch_break_starts c1)
  /\ days_at_time (date_range start1 end1 (day adhoc_holidays))
       lunch_break_end tz 0 = Ok (_lunch_break_ends c1).
Proof.
  intros H1 H2. pose proof (TradingCalendar_init_Ok _ _ _ H1) as Hbase.
  apply init_Ok in H1 as [_ ->], H2 as [_ ->].
  cbn [_opens _closes _lunch_break_starts _lunch_break_ends schedule
       DataFrame.index DataFrame.market_open DataFrame.market_close] in *.
  rewrite !days_at_time_Shanghai.
  repeat split; try reflexivity. exact Hbase.
Qed.

End Construction.

Lemma sessions_are_the_business_days_witness :
  exists c,
    init import_1990 holidays_1991 start_default (end_default import_1990) = Ok c
    /\ StronglySorted Z.lt (DataFrame.index (schedule c))
    /\ NoDup (DataFrame.index (schedule c))
    /\ forall x, In x (DataFrame.index (schedule c)) <->
                 AllDates start_default (end_default import_1990) x
                 /\ ~ Weekends x /\ ~ Holidays holidays_1991 x.
Proof.
  destruct (init import_1990 holidays_1991 start_default (end_default import_1990))
    as [c|e] eqn:E; [|exfalso; vm_compute in E; discriminate E].
  exists c. split; [reflexivity|].
  destruct (sessions_are_the_business_days import_1990 holidays_1991
              start_default (end_default import_1990))
    as (Hs & Hnd & Hin & Hidx).
  rewrite (Hidx c E). split; [exact Hs|]. split; [exact Hnd | exact Hin].
Defined.

(** Two calendars of the 1990 setting: the default one and the one asked
    for from 02:00 on 1990-12-19, whose lunch break comes two hours later. *)
Lemma opens_closes_ignore_the_range_witness :
  exists c1 c2,
    init import_1990 holidays_1991 start_default (end_default import_1990) = Ok c1
    /\ init import_1990 holidays_1991 (start_default + 120 * NANOS_IN_MINUTE)
            (end_default import_1990) = Ok c2
    /\ _lunch_break_starts c1 <> _lunch_break_starts c2
    /\ _opens c1 = _opens c2 /\ _closes c1 = _closes c2.
Proof.
  assert (H : match init import_1990 holidays_1991 start_default
                      (end_default import_1990),
                    init import_1990 holidays_1991
                      (start_default + 120 * NANOS_IN_MINUTE)
                      (end_default import_1990) with
              | Ok c1, Ok c2 =>
                  (hd 0 (_lunch_break_starts c1), hd 0 (_lunch_break_starts c2))
              | _, _ => (0, 0)
              end
              = (Timestamp_ymd_hm 1990 12 19 3 30, Timestamp_ymd_hm 1990 12 19 5 30))
    by (vm_compute; reflexivity).
  destruct (init import_1990 holidays_1991 start_default (end_default import_1990))
    as [c1|e1] eqn:E1; [|exfalso; vm_compute in H; discriminate H].
  destruct (init import_1990 holidays_1991 (start_default + 120 * NANOS_IN_MINUTE)
                 (end_default import_1990))
    as [c2|e2] eqn:E2; [|exfalso; vm_compute in H; discriminate H].
  exists c1, c2. split; [reflexivity|]. split; [reflexivity|].
  split.
  { intros Heq. rewrite Heq in H. injection H as Ha Hb. rewrite Ha in Hb.
    vm_compute in Hb. discriminate Hb. }
  pose proof (opens_closes_ignore_the_range import_1990 holidays_1991
                start_default (end_default import_1990)
                (start_default + 120 * NANOS_IN_MINUTE) (end_default import_1990)
                c1 c2 E1 E2)
    as (Ho & Hc & _).
  split; [exact Ho | exact Hc].
Defined.

(** ** The schedule table *)

(** A row of the table of a calendar built over the default range: the
    label is a session of that range and the four boundaries are the
    configured times of that very date. *)
Lemma default_schedule_row (end_base : Timestamp) (adhoc_holidays : list Timestamp)
    (c : SHSZExchangeCalendar) (i : nat)
    (r : Timestamp * (Timestamp * Timestamp * Timestamp * Timestamp)) :
  init end_base adhoc_holidays start_default (end_default end_base) = Ok c ->
  DataFrame.row (schedule c) i = Some r ->
  exists d, nth_error (base_sessions end_base adhoc_holidays) i = Some d
    /\ r = (d, (at_utc8 open_times d, at_utc8 lunch_break_start d,
                at_utc8 lunch_break_end d, at_utc8 close_times d)).
Proof.
  intros H Hr. apply init_Ok in H as [_ ->].
  unfold DataFrame.row in Hr.
  cbn [schedule DataFrame.index DataFrame.market_open DataFrame.market_close
       DataFrame.lunch_break_start DataFrame.lunch_break_end] in Hr.
  fold (base_sessions end_base adhoc_holidays) in Hr.
  rewrite !nth_error_map in Hr.
  destruct (nth_error (base_sessions end_base adhoc_holidays) i) as [d|];
    [|discriminate].
  cbn [option_map] in Hr. injection Hr as <-. exists d. split; reflexivity.
Qed.

(** Construction over the default range always succeeds, and the table has
    one row per session. *)
Lemma default_schedule_rows (end_base : Timestamp) (adhoc_holidays : list Timestamp) :
  exists c,
    init end_base adhoc_holidays start_default (end_default end_base) = Ok c
    /\ DataFrame.index (schedule c) = base_sessions end_base adhoc_holidays
    /\ forall i d, nth_error (base_sessions end_base adhoc_holidays) i = Some d ->
         DataFrame.row (schedule c) i
         = Some (d, (at_utc8 open_times d, at_utc8 lunch_break_start d,
                     at_utc8 lunch_break_end d, at_utc8 close_times d))
         /\ Localize tz d open_times = Ok (at_utc8 open_times d)
         /\ Localize tz d lunch_break_start = Ok (at_utc8 lunch_break_start d)
         /\ Localize tz d lunch_break_end = Ok (at_utc8 lunch_break_end d)
         /\ Localize tz d close_times = Ok (at_utc8 close_times d).
Proof.
  eexists. split; [apply init_default|].
  split; [reflexivity|]. intros i d Hd.
  split; [|rewrite !Localize_Shanghai; auto].
  unfold DataFrame.row.
  cbn [schedule DataFrame.index DataFrame.market_open DataFrame.market_close
       DataFrame.lunch_break_start DataFrame.lunch_break_end].
  rewrite !nth_error_map, Hd. reflexivity.
Qed.






(** ** The sizes of the sessions of a constructed calendar *)

Section Sizes.

Variable end_base : Timestamp.

Variable adhoc_holidays : list Timestamp.

Variables start end_ : Timestamp.

Variable c : SHSZExchangeCalendar.

Hypothesis Hinit : init end_base adhoc_holidays start end_ = Ok c.

Lemma constructed_before_sizes :
  daily_before_lunch_sizes c
  = Ok (map (fun p => span_size (at_utc8 lunch_break_start (fst p)
                                 - at_utc8 open_times (snd p)))
            (paired_sessions end_base adhoc_holidays start end_)).
Proof.
  destruct (init_Ok _ _ _ _ _ Hinit) as [Hlen ->].
  unfold daily_before_lunch_sizes. cbn [_lunch_break_starts _opens].
  rewrite np_binop_same_length by (rewrite !length_map; auto).
  cbn [bind]. rewrite map_map.
  rewrite (map_combine_maps (fun a b => span_size (a - b))). reflexivity.
Qed.

Lemma constructed_after_sizes :
  daily_after_lunch_sizes c
  = Ok (map (fun p => span_size (at_utc8 close_times (snd p)
                                 - at_utc8 lunch_break_end (fst p)))
            (paired_sessions end_base adhoc_holidays start end_)).
Proof.
  destruct (init_Ok _ _ _ _ _ Hinit) as [Hlen ->].
  unfold daily_after_lunch_sizes. cbn [_lunch_break_ends _closes].
  rewrite np_binop_same_length by (rewrite !length_map; auto).
  cbn [bind]. rewrite map_map.
  rewrite (map_combine_maps (fun a b => span_size (a - b))).
  rewrite (map_combine_swap
             (fun b s => span_size (at_utc8 close_times b
                                    - at_utc8 lunch_break_end s))).
  reflexivity.
Qed.

Lemma constructed_daily_sizes :
  daily_sizes c
  = Ok (map (fun p => span_size (at_utc8 lunch_break_start (fst p)
                                 - at_utc8 open_times (snd p))
                      + span_size (at_utc8 close_times (snd p)
                                   - at_utc8 lunch_break_end (fst p)))
            (paired_sessions end_base adhoc_holidays start end_)).
Proof.
  unfold daily_sizes.
  rewrite constructed_before_sizes, constructed_after_sizes. cbn [bind].
  rewrite np_binop_same_length by (rewrite !length_map; reflexivity).
  rewrite (map_combine_same Z.add). reflexivity.
Qed.

Lemma constructed_minutes_per_session :
  _minutes_per_session c
  = Ok (map (fun p => astype_m (at_utc8 lunch_break_start (fst p))
                      - astype_m (at_utc8 open_times (snd p))
                      + (astype_m (at_utc8 close_times (snd p))
                         - astype_m (at_utc8 lunch_break_end (fst p)))
                      + 2)
            (paired_sessions end_base adhoc_holidays start end_)).
Proof.
  destruct (init_Ok _ _ _ _ _ Hinit) as [Hlen ->].
  unfold _minutes_per_session.
  cbn [schedule DataFrame.lunch_break_start DataFrame.lunch_break_end
       DataFrame.market_open DataFrame.market_close].
  rewrite !map_map.
  rewrite !np_binop_same_length by (rewrite !length_map; auto).
  cbn [bind].
  rewrite (map_combine_maps Z.sub (fun d => astype_m (at_utc8 lunch_break_start d))
             (fun d => astype_m (at_utc8 open_times d))).
  rewrite (map_combine_maps Z.sub (fun d => astype_m (at_utc8 close_times d))
             (fun d => astype_m (at_utc8 lunch_break_end d))).
  rewrite (map_combine_swap
             (fun b s => astype_m (at_utc8 close_times b)
                         - astype_m (at_utc8 lunch_break_end s))).
  rewrite np_binop_same_length by (rewrite !length_map; reflexivity).
  cbn [bind]. rewrite (map_combine_same Z.add), map_map. reflexivity.
Qed.

Lemma paired_sessions_row (i : nat) (d o bs be cl : Timestamp) :
  DataFrame.row (schedule c) i = Some (d, (o, bs, be, cl)) ->
  exists b, nth_error (paired_sessions end_base adhoc_holidays start end_) i = Some (d, b)
    /\ In d (sessions_of adhoc_holidays start end_)
    /\ In b (base_sessions end_base adhoc_holidays)
    /\ o = at_utc8 open_times b /\ bs = at_utc8 lunch_break_start d
    /\ be = at_utc8 lunch_break_end d /\ cl = at_utc8 close_times b.
Proof.
  destruct (init_Ok _ _ _ _ _ Hinit) as [Hlen ->].
  unfold DataFrame.row, paired_sessions.
  cbn [schedule DataFrame.index DataFrame.lunch_break_start
       DataFrame.lunch_break_end DataFrame.market_open DataFrame.market_close].
  rewrite !nth_error_map, nth_error_combine.
  destruct (nth_error (sessions_of adhoc_holidays start end_) i) as [d'|] eqn:Ed;
    [|discriminate].
  destruct (nth_error (base_sessions end_base adhoc_holidays) i) as [b|] eqn:Eb;
    [|discriminate].
  cbn [option_map]. intros [= <- <- <- <- <-]. exists b.
  split; [reflexivity|].
  split; [eapply nth_error_In; eassumption|].
  split; [eapply nth_error_In; eassumption|]. auto.
Qed.

End Sizes.

(** C9. In a calendar constructed for a range that starts on a whole minute
    (as every calendar date does), [_minutes_per_session] and the
    [daily_sizes] that size the minute grid are the same array: in every
    row the "+ 2" count equals the two inclusive span counts, and, when the
    row's boundaries are in order, the number of ticks of its two windows. *)
Theorem minutes_per_session_is_daily_size (end_base : Timestamp)
    (adhoc_holidays : list Timestamp) (start end_ : Timestamp)
    (c : SHSZExchangeCalendar) :
  (NANOS_IN_MINUTE | start) ->
  init end_base adhoc_holidays start end_ = Ok c ->
  exists sizes,
    _minutes_per_session c = Ok sizes
    /\ daily_sizes c = Ok sizes
    /\ forall i d o bs be cl,
         DataFrame.row (schedule c) i = Some (d, (o, bs, be, cl)) ->
         nth_error sizes i
         = Some (astype_m bs - astype_m o + (astype_m cl - astype_m be) + 2)
         /\ nth_error sizes i = Some (span_size (bs - o) + span_size (cl - be))
         /\ (o <= bs -> be <= cl ->
             nth_error sizes i
             = Some (Z.of_nat (length (session_minutes o bs be cl)))).
Proof.
  intros Hstart Hinit.
  assert (Hwhole : forall d b,
             In d (sessions_of adhoc_holidays start end_) ->
             In b (base_sessions end_base adhoc_holidays) ->
             (NANOS_IN_MINUTE | at_utc8 open_times b)
             /\ (NANOS_IN_MINUTE | at_utc8 lunch_break_start d)
             /\ (NANOS_IN_MINUTE | at_utc8 lunch_break_end d)
             /\ (NANOS_IN_MINUTE | at_utc8 close_times b)).
  { intros d b Hd Hb.
    apply (date_range_whole_minute _ _ _ _ Hstart) in Hd.
    apply (date_range_whole_minute _ _ _ _ start_default_whole_minute) in Hb.
    repeat split; apply at_utc8_whole_minute; auto. }
  eexists. split; [apply (constructed_minutes_per_session _ _ _ _ _ Hinit)|].
  split.
  - rewrite (constructed_daily_sizes _ _ _ _ _ Hinit). f_equal.
    apply map_ext_in. intros [d b] Hp. cbn [fst snd].
    destruct (Hwhole d b) as (Ho & Hbs & Hbe & Hcl);
      [eapply in_combine_l; exact Hp | eapply in_combine_r; exact Hp |].
    rewrite !astype_m_sub by assumption. unfold span_size. lia.
  - intros i d o bs be cl Hrow.
    destruct (paired_sessions_row _ _ _ _ _ Hinit _ _ _ _ _ _ Hrow)
      as (b & Hnth & Hd & Hb & -> & -> & -> & ->).
    destruct (Hwhole d b Hd Hb) as (Ho & Hbs & Hbe & Hcl).
    rewrite nth_error_map, Hnth. cbn [option_map fst snd].
    split; [reflexivity|].
    assert (Heq : astype_m (at_utc8 lunch_break_start d)
                  - astype_m (at_utc8 open_times b)
                  + (astype_m (at_utc8 close_times b)
                     - astype_m (at_utc8 lunch_break_end d)) + 2
                  = span_size (at_utc8 lunch_break_start d - at_utc8 open_times b)
                    + span_size (at_utc8 close_times b
                                 - at_utc8 lunch_break_end d)).
    { rewrite !astype_m_sub by assumption. unfold span_size. lia. }
    split; [now rewrite Heq|].
    intros Hle1 Hle2. rewrite Heq.
    destruct (whole_minute_span _ _ Ho Hbs Hle1) as (kb & Hkb & Ebs).
    destruct (whole_minute_span _ _ Hbe Hcl Hle2) as (ka & Hka & Ecl).
    now rewrite (session_minutes_length _ _ _ _ kb ka Hkb Ebs Hka Ecl).
Qed.

Lemma minutes_per_session_is_daily_size_witness :
  (NANOS_IN_MINUTE | start_default)
  /\ exists c,
       init import_1990 holidays_1991 start_default (end_default import_1990) = Ok c
       /\ exists sizes,
            _minutes_per_session c = Ok sizes /\ daily_sizes c = Ok sizes.
Proof.
  assert (Hdiv : (NANOS_IN_MINUTE | start_default))
    by (exists (start_default / NANOS_IN_MINUTE); vm_compute; reflexivity).
  split; [exact Hdiv|].
  destruct (init import_1990 holidays_1991 start_default (end_default import_1990))
    as [c|e] eqn:E; [|exfalso; vm_compute in E; discriminate E].
  exists c. split; [reflexivity|].
  destruct (minutes_per_session_is_daily_size import_1990 holidays_1991
              start_default (end_default import_1990) c Hdiv E)
    as (sizes & H1 & H2 & _).
  exists sizes. split; [exact H1 | exact H2].
Defined.

(** ** The session of 2016-03-14 *)

(** C8. In a calendar of the default range, the row of 2016-03-14 has the
    boundaries 01:31, 03:30, 05:01 and 07:00 UTC of that day, the localised
    09:31, 11:30, 13:01 and 15:00 of Asia/Shanghai; its size before the
    break is 120, after the break 120, its size in the grid and its minutes
    per session 240. *)
Theorem session_of_2016_03_14 (end_base : Timestamp)
    (adhoc_holidays : list Timestamp) (c : SHSZExchangeCalendar) (i : nat) :
  init end_base adhoc_holidays start_default (end_default end_base) = Ok c ->
  nth_error (DataFrame.index (schedule c)) i = Some (Timestamp_ymd 2016 3 14) ->
  DataFrame.row (schedule c) i
  = Some (Timestamp_ymd 2016 3 14,
          (Timestamp_ymd_hm 2016 3 14 1 31, Timestamp_ymd_hm 2016 3 14 3 30,
           Timestamp_ymd_hm 2016 3 14 5 1, Timestamp_ymd_hm 2016 3 14 7 0))
  /\ Localize tz (Timestamp_ymd 2016 3 14) open_times
     = Ok (Timestamp_ymd_hm 2016 3 14 1 31)
  /\ Localize tz (Timestamp_ymd 2016 3 14) lunch_break_start
     = Ok (Timestamp_ymd_hm 2016 3 14 3 30)
  /\ Localize tz (Timestamp_ymd 2016 3 14) lunch_break_end
     = Ok (Timestamp_ymd_hm 2016 3 14 5 1)
  /\ Localize tz (Timestamp_ymd 2016 3 14) close_times
     = Ok (Timestamp_ymd_hm 2016 3 14 7 0)
  /\ exists before after sizes per_session,
       daily_before_lunch_sizes c = Ok before /\ nth_error before i = Some 120
       /\ daily_after_lunch_sizes c = Ok after /\ nth_error after i = Some 120
       /\ daily_sizes c = Ok sizes /\ nth_error sizes i = Some 240
       /\ _minutes_per_session c = Ok per_session
       /\ nth_error per_session i = Some 240.
Proof.
  intros Hinit Hi.
  assert (Hd : nth_error (base_sessions end_base adhoc_holidays) i
               = Some (Timestamp_ymd 2016 3 14)).
  { destruct (init_Ok _ _ _ _ _ Hinit) as [_ Hc]. rewrite Hc in Hi. exact Hi. }
  destruct (default_schedule_rows end_base adhoc_holidays) as (c' & Hc' & _ & Hrows).
  assert (c' = c) by congruence. subst c'.
  destruct (Hrows i _ Hd) as (Hrow & _).
  split; [rewrite Hrow; vm_compute; reflexivity|].
  do 4 (split; [vm_compute; reflexivity|]).
  assert (Hp : nth_error (paired_sessions end_base adhoc_holidays start_default
                            (end_default end_base)) i
               = Some (Timestamp_ymd 2016 3 14, Timestamp_ymd 2016 3 14)).
  { unfold paired_sessions. rewrite nth_error_combine.
    fold (base_sessions end_base adhoc_holidays). now rewrite Hd. }
  do 4 eexists.
  split; [apply (constructed_before_sizes _ _ _ _ _ Hinit)|].
  split; [rewrite nth_error_map, Hp; vm_compute; reflexivity|].
  split; [apply (constructed_after_sizes _ _ _ _ _ Hinit)|].
  split; [rewrite nth_error_map, Hp; vm_compute; reflexivity|].
  split; [apply (constructed_daily_sizes _ _ _ _ _ Hinit)|].
  split; [rewrite nth_error_map, Hp; vm_compute; reflexivity|].
  split; [apply (constructed_minutes_per_session _ _ _ _ _ Hinit)|].
  rewrite nth_error_map, Hp. vm_compute. reflexivity.
Qed.

Lemma session_of_2016_03_14_witness :
  exists c,
    init import_2016 holidays_2016 start_default (end_default import_2016) = Ok c
    /\ nth_error (DataFrame.index (schedule c)) (Z.to_nat 6582)
       = Some (Timestamp_ymd 2016 3 14)
    /\ DataFrame.row (schedule c) (Z.to_nat 6582)
       = Some (Timestamp_ymd 2016 3 14,
               (Timestamp_ymd_hm 2016 3 14 1 31, Timestamp_ymd_hm 2016 3 14 3 30,
                Timestamp_ymd_hm 2016 3 14 5 1, Timestamp_ymd_hm 2016 3 14 7 0)).
Proof.
  pose proof (init_default import_2016 holidays_2016) as E.
  assert (H : nth_error (base_sessions import_2016 holidays_2016) (Z.to_nat 6582)
              = Some (Timestamp_ymd 2016 3 14))
    by (vm_compute; reflexivity).
  eexists. split; [exact E|]. split; [exact H|].
  exact (proj1 (session_of_2016_03_14 import_2016 holidays_2016 _
                  (Z.to_nat 6582) E H)).
Defined.

(** ** The minute grid of a constructed calendar *)

(** For a calendar of the default range [all_minutes] returns the grid:
    strictly ascending, 240 ticks a session, each tick in a window of
    exactly one session and none inside a break. *)
Theorem default_minute_grid (end_base : Timestamp)
    (adhoc_holidays : list Timestamp) (c : SHSZExchangeCalendar) :
  init end_base adhoc_holidays start_default (end_default end_base) = Ok c ->
  exists grid,
    all_minutes c = Ok (map Some grid)
    /\ StronglySorted Z.lt grid /\ NoDup grid
    /\ Z.of_nat (length grid)
       = fold_right Z.add 0
           (map (fun r => before_size r + after_size r)
                (default_rows end_base adhoc_holidays))
    /\ (forall x, In x grid <->
          exists r, In r (default_rows end_base adhoc_holidays) /\ in_windows r x)
    /\ (forall x r, In x grid -> In r (default_rows end_base adhoc_holidays) ->
          ~ (row_break_start r < x < row_break_end r)).
Proof.
  intros Hinit. apply init_Ok in Hinit as [_ ->].
  destruct (minute_grid_of_valid_rows (default_rows end_base adhoc_holidays)
              (DataFrame.mk (sessions_of adhoc_holidays start_default
                               (end_default end_base))
                 (map (at_utc8 open_times) (base_sessions end_base adhoc_holidays))
                 (map (at_utc8 close_times) (base_sessions end_base adhoc_holidays))
                 (map (at_utc8 lunch_break_start)
                      (sessions_of adhoc_holidays start_default
                         (end_default end_base)))
                 (map (at_utc8 lunch_break_end)
                      (sessions_of adhoc_holidays start_default
                         (end_default end_base))))
              (default_rows_valid _ _) (default_rows_sorted _ _))
    as (grid & Hgrid & Hs & Hnd & Hlen & Hin & _ & Hbreak).
  exists grid. repeat split; try assumption; try (now apply Hin).
  rewrite <- Hgrid. unfold rows_calendar, default_rows.
  rewrite !map_map. reflexivity.
Qed.

(** The grid of the 1990 setting: ten sessions, 2400 ticks, from the open
    of 1990-12-19 on. *)
Example all_minutes_1990 :
  match init import_1990 holidays_1991 start_default (end_default import_1990) with
  | Ok c => match all_minutes c with
            | Ok grid => (length grid, hd None grid)
            | Raise _ => (0%nat, None)
            end
  | Raise _ => (0%nat, None)
  end = (2400%nat, Some (Timestamp_ymd_hm 1990 12 19 1 31)).
Proof. vm_compute. reflexivity. Qed.

Lemma table_rows_maps (idx l : list Timestamp) (f1 f2 f3 f4 : Timestamp -> Timestamp) :
  table_rows (DataFrame.mk idx (map f1 l) (map f4 l) (map f2 l) (map f3 l))
  = map (fun d => (f1 d, f2 d, f3 d, f4 d)) l.
Proof.
  unfold table_rows.
  cbn [DataFrame.market_open DataFrame.market_close DataFrame.lunch_break_start
       DataFrame.lunch_break_end].
  induction l as [|d l IH]; [reflexivity|]. cbn [map combine]. now rewrite IH.
Qed.

(** The grid of a calendar constructed for a range that starts on a calendar
    date: its rows are those of the default range, all in order. *)
Lemma date_range_minute_grid (end_base : Timestamp)
    (adhoc_holidays : list Timestamp) (start end_ : Timestamp)
    (c : SHSZExchangeCalendar) :
  (NANOS_IN_DAY | start) ->
  init end_base adhoc_holidays start end_ = Ok c ->
  Forall valid_row (table_rows (schedule c))
  /\ StronglySorted row_before (table_rows (schedule c))
  /\ c = rows_calendar (table_rows (schedule c)) (schedule c).
Proof.
  intros Hstart Hinit.
  pose proof (init_date_range _ _ _ _ _ Hstart Hinit) as Hdef.
  rewrite init_default in Hdef. injection Hdef as <-.
  cbn [schedule]. rewrite table_rows_maps.
  fold (default_rows end_base adhoc_holidays).
  split; [apply default_rows_valid|]. split; [apply default_rows_sorted|].
  unfold rows_calendar, default_rows. rewrite !map_map. reflexivity.
Qed.

(** C4. For a calendar constructed for a range that starts on a calendar
    date, [all_minutes] returns a grid that is strictly ascending and free
    of duplicates, and whose length is the sum over the rows of the table
    of the minutes from the open to the break start plus one and the
    minutes from the break end to the close plus one. *)
Theorem all_minutes_ascending_and_sized (end_base : Timestamp)
    (adhoc_holidays : list Timestamp) (start end_ : Timestamp)
    (c : SHSZExchangeCalendar) :
  (NANOS_IN_DAY | start) ->
  init end_base adhoc_holidays start end_ = Ok c ->
  exists grid,
    all_minutes c = Ok (map Some grid)
    /\ StronglySorted Z.lt grid /\ NoDup grid
    /\ Z.of_nat (length grid)
       = fold_right Z.add 0
           (map (fun r => (Z.quot (row_break_start r - row_open r) NANOS_IN_MINUTE + 1)
                          + (Z.quot (row_close r - row_break_end r) NANOS_IN_MINUTE + 1))
                (table_rows (schedule c))).
Proof.
  intros Hstart Hinit.
  destruct (date_range_minute_grid _ _ _ _ _ Hstart Hinit) as (Hv & Hs & Hc).
  destruct (minute_grid_of_valid_rows _ (schedule c) Hv Hs)
    as (grid & Hgrid & Hsorted & Hnd & Hlen & _).
  exists grid. rewrite <- Hc in Hgrid.
  split; [exact Hgrid|]. split; [exact Hsorted|]. split; [exact Hnd|].
  exact Hlen.
Qed.

Lemma all_minutes_ascending_and_sized_witness :
  (NANOS_IN_DAY | start_default)
  /\ exists c,
       init import_1990 holidays_1991 start_default (end_default import_1990) = Ok c
       /\ exists grid,
            all_minutes c = Ok (map Some grid)
            /\ StronglySorted Z.lt grid /\ NoDup grid
            /\ length grid = 2400%nat.
Proof.
  assert (Hdiv : (NANOS_IN_DAY | start_default))
    by (exists (start_default / NANOS_IN_DAY); vm_compute; reflexivity).
  split; [exact Hdiv|].
  assert (H : match init import_1990 holidays_1991 start_default
                      (end_default import_1990) with
              | Ok c => match all_minutes c with
                        | Ok g => length g
                        | Raise _ => 0%nat
                        end
              | Raise _ => 0%nat
              end = 2400%nat) by (vm_compute; reflexivity).
  destruct (init import_1990 holidays_1991 start_default (end_default import_1990))
    as [c|e] eqn:E; [|discriminate H].
  exists c. split; [reflexivity|].
  destruct (all_minutes_ascending_and_sized import_1990 holidays_1991 start_default
              (end_default import_1990) c Hdiv E)
    as (grid & Hg & Hs & Hnd & _).
  exists grid. rewrite Hg, length_map in H.
  split; [exact Hg|]. split; [exact Hs|]. split; [exact Hnd | exact H].
Defined.

(** C5. For a calendar constructed for a range that starts on a calendar
    date, the grid [all_minutes] returns holds exactly the one-minute ticks
    of the windows [open, break start] and [break end, close] of the rows
    of the table; every tick is in the windows of one row only, and none
    falls strictly inside the break of a row. *)
Theorem all_minutes_is_the_windows (end_base : Timestamp)
    (adhoc_holidays : list Timestamp) (start end_ : Timestamp)
    (c : SHSZExchangeCalendar) :
  (NANOS_IN_DAY | start) ->
  init end_base adhoc_holidays start end_ = Ok c ->
  exists grid,
    all_minutes c = Ok (map Some grid)
    /\ (forall x, In x grid <->
          exists r, In r (table_rows (schedule c)) /\ in_windows r x)
    /\ (forall x i j r r',
          nth_error (table_rows (schedule c)) i = Some r ->
          nth_error (table_rows (schedule c)) j = Some r' ->
          in_windows r x -> in_windows r' x -> i = j)
    /\ (forall x r, In x grid -> In r (table_rows (schedule c)) ->
          ~ (row_break_start r < x < row_break_end r)).
Proof.
  intros Hstart Hinit.
  destruct (date_range_minute_grid _ _ _ _ _ Hstart Hinit) as (Hv & Hs & Hc).
  destruct (minute_grid_of_valid_rows _ (schedule c) Hv Hs)
    as (grid & Hgrid & _ & _ & _ & Hin & Hone & Hbreak).
  exists grid. rewrite <- Hc in Hgrid.
  split; [exact Hgrid|]. split; [exact Hin|]. split; [exact Hone | exact Hbreak].
Qed.

Lemma all_minutes_is_the_windows_witness :
  (NANOS_IN_DAY | start_default)
  /\ exists c,
       init import_1990 holidays_1991 start_default (Timestamp_ymd 1991 1 2) = Ok c
       /\ exists grid,
            all_minutes c = Ok (map Some grid)
            /\ forall x, In x grid <->
                 exists r, In r (table_rows (schedule c)) /\ in_windows r x.
Proof.
  assert (Hdiv : (NANOS_IN_DAY | start_default))
    by (exists (start_default / NANOS_IN_DAY); vm_compute; reflexivity).
  split; [exact Hdiv|].
  destruct (init import_1990 holidays_1991 start_default (Timestamp_ymd 1991 1 2))
    as [c|e] eqn:E; [|exfalso; vm_compute in E; discriminate E].
  exists c. split; [reflexivity|].
  destruct (all_minutes_is_the_windows import_1990 holidays_1991 start_default
              (Timestamp_ymd 1991 1 2) c Hdiv E)
    as (grid & Hg & Hin & _).
  exists grid. split; [exact Hg | exact Hin].
Defined.

(** ** Ranges without a trading day *)

(** A range without a trading day is refused by the constructor as soon as
    the default range has a session: the empty index does not fit the open
    and close columns. *)
Lemma init_empty_range (end_base : Timestamp) (adhoc_holidays : list Timestamp)
    (start end_ : Timestamp) :
  sessions_of adhoc_holidays start end_ = [] ->
  base_sessions end_base adhoc_holidays <> [] ->
  init end_base adhoc_holidays start end_ = Raise ValueError.
Proof.
  intros Hs Hb. rewrite init_eq, Hs.
  destruct (base_sessions end_base adhoc_holidays) as [|b [|b' B]]; [congruence| |];
    reflexivity.
Qed.

(** C6, on the ranges of the claim.  For the single day 2016-01-01, a
    Friday and a holiday, and for the single day 2016-01-02, a Saturday,
    the range has no session and the constructor raises [ValueError]: the
    base constructor, run on the empty lunch-break series the constructor
    has computed by then, evaluates [all_minutes] against the opens and
    closes of the default range, and [all_minutes] raises [ValueError]. *)
Theorem holiday_only_range_raises :
  weekday (Timestamp_ymd 2016 1 1) = FRIDAY
  /\ sessions_of holidays_2016 (Timestamp_ymd 2016 1 1) (Timestamp_ymd 2016 1 1) = []
  /\ init import_2016 holidays_2016 (Timestamp_ymd 2016 1 1) (Timestamp_ymd 2016 1 1)
     = Raise ValueError
  /\ weekday (Timestamp_ymd 2016 1 2) = SATURDAY
  /\ init import_2016 holidays_2016 (Timestamp_ymd 2016 1 2) (Timestamp_ymd 2016 1 2)
     = Raise ValueError
  /\ match days_at_time (base_sessions import_2016 holidays_2016) open_times tz 0,
           days_at_time (base_sessions import_2016 holidays_2016) close_times tz 0
     with
     | Ok opens, Ok closes =>
         all_minutes (mk_calendar [] [] opens closes (DataFrame.mk [] [] [] [] []))
     | _, _ => Ok []
     end = Raise ValueError
  /\ TradingCalendar_init holidays_2016 [] [] start_default
       (end_default import_2016)
     = Raise ValueError.
Proof.
  split; [vm_compute; reflexivity|].
  split; [vm_compute; reflexivity|].
  split; [vm_compute; reflexivity|].
  split; [vm_compute; reflexivity|].
  split; [vm_compute; reflexivity|].
  split; vm_compute; reflexivity.
Qed.

(** ** Further properties of [days_at_time] *)

Lemma days_at_time_Ok (z : tzinfo) (days : list Timestamp) (t : time)
    (day_offset : Z) (us : list Timestamp) :
  days_at_time days t z day_offset = Ok us ->
  Forall2 (fun d u =>
             tz_localize z (d + Timedelta day_offset (hour t) (minute t) (second t))
             = Ok u)
          days us.
Proof.
  unfold days_at_time. destruct days as [|d0 days0].
  - cbn [length Nat.eqb]. intros [= <-]. constructor.
  - cbn [length Nat.eqb]. apply mapM_Ok_inv.
Qed.

(** X1. What [days_at_time] returns are, day by day, the instants at which
    the zone shows the time [t] of the day, each the only instant that
    shows it. *)
Theorem days_at_time_returns_the_instants (z : tzinfo) (days : list Timestamp)
    (t : time) (day_offset : Z) (us : list Timestamp) :
  days_at_time days t z day_offset = Ok us ->
  Forall2 (fun d u =>
             to_wall z u = d + Timedelta day_offset (hour t) (minute t) (second t)
             /\ forall u',
                  to_wall z u'
                  = d + Timedelta day_offset (hour t) (minute t) (second t) ->
                  u' = u)
          days us.
Proof.
  intros H. apply days_at_time_Ok in H.
  eapply Forall2_impl; [|exact H]. intros d u Hd. cbv beta in Hd.
  now apply tz_localize_Ok.
Qed.

Lemma days_at_time_returns_the_instants_witness :
  days_at_time [Timestamp_ymd 2016 3 12; Timestamp_ymd 2016 3 13;
                Timestamp_ymd 2016 3 14] (mk_time 8 45 0) US_Eastern 0
  = Ok [Timestamp_ymd_hm 2016 3 12 13 45; Timestamp_ymd_hm 2016 3 13 12 45;
        Timestamp_ymd_hm 2016 3 14 12 45]
  /\ to_wall US_Eastern (Timestamp_ymd_hm 2016 3 13 12 45)
     = Timestamp_ymd 2016 3 13 + Timedelta 0 8 45 0.
Proof.
  assert (H : days_at_time [Timestamp_ymd 2016 3 12; Timestamp_ymd 2016 3 13;
                            Timestamp_ymd 2016 3 14] (mk_time 8 45 0) US_Eastern 0
              = Ok [Timestamp_ymd_hm 2016 3 12 13 45;
                    Timestamp_ymd_hm 2016 3 13 12 45;
                    Timestamp_ymd_hm 2016 3 14 12 45])
    by (vm_compute; reflexivity).
  split; [exact H|].
  pose proof (days_at_time_returns_the_instants US_Eastern _ (mk_time 8 45 0) 0 _ H)
    as HF.
  inversion_clear HF as [|? ? ? ? _ HF']. inversion_clear HF' as [|? ? ? ? H2 _].
  exact (proj1 H2).
Defined.

Lemma mapM_map {A B C : Type} (f : B -> result C) (g : A -> B) (l : list A) :
  mapM f (map g l) = mapM (fun a => f (g a)) l.
Proof. induction l as [|a l IH]; cbn [map mapM]; [reflexivity | now rewrite IH]. Qed.

Lemma mapM_ext {A B : Type} (f g : A -> result B) (l : list A) :
  (forall a, f a = g a) -> mapM f l = mapM g l.
Proof.
  intros H. induction l as [|a l IH]; cbn [mapM]; [reflexivity|].
  now rewrite H, IH.
Qed.

(** X2. The [day_offset] argument is the same as moving the days
    themselves: offsetting by [k] days gives what offset 0 gives on the days
    [k] days later. *)
Theorem days_at_time_day_offset (z : tzinfo) (days : list Timestamp) (t : time)
    (k : Z) :
  days_at_time days t z k
  = days_at_time (map (fun d => d + k * NANOS_IN_DAY) days) t z 0.
Proof.
  destruct days as [|d0 days0]; [reflexivity|].
  unfold days_at_time. rewrite length_map. cbn [length Nat.eqb].
  rewrite mapM_map. apply mapM_ext. intros d. f_equal.
  unfold Timedelta. lia.
Qed.

Lemma Forall2_StronglySorted {A B : Type} (P : A -> B -> Prop)
    (R : A -> A -> Prop) (R' : B -> B -> Prop) (l : list A) (l' : list B) :
  (forall a a' b b', P a b -> P a' b' -> R a a' -> R' b b') ->
  Forall2 P l l' -> StronglySorted R l -> StronglySorted R' l'.
Proof.
  intros HP H. induction H as [|a b l l' Hab H2 IH]; intros Hs; [constructor|].
  inversion_clear Hs as [|? ? Hs' Hall]. constructor; [now apply IH|].
  clear IH Hs'. induction H2 as [|a' b' l l' Hab' _ IH2]; [constructor|].
  inversion_clear Hall as [|? ? Ha' Hall']. constructor; [|now apply IH2].
  eapply HP; eassumption.
Qed.

(** X3. In a zone whose offsets differ by less than a day, [days_at_time]
    keeps the order of days that are at least a day apart, also across a
    transition: the returned instants are strictly ascending. *)
Theorem days_at_time_preserves_order (z : tzinfo) (days : list Timestamp)
    (t : time) (day_offset : Z) (us : list Timestamp) :
  (forall o1 o2, In o1 (offsets z) -> In o2 (offsets z) ->
                 o1 - o2 < NANOS_IN_DAY) ->
  StronglySorted (fun d d' => d + NANOS_IN_DAY <= d') days ->
  days_at_time days t z day_offset = Ok us ->
  StronglySorted Z.lt us.
Proof.
  intros Hoff Hdays Hok. apply days_at_time_Ok in Hok.
  refine (Forall2_StronglySorted _ _ _ _ _ _ Hok Hdays).
  intros d d' u u' Hu Hu' Hdd. cbv beta in Hu, Hu'.
  apply tz_localize_Ok in Hu as [Hu _], Hu' as [Hu' _].
  unfold to_wall in Hu, Hu'.
  pose proof (Hoff (utcoffset z u') (utcoffset z u)
                (offset_after_In _ _ _) (offset_after_In _ _ _)).
  lia.
Qed.

Lemma days_at_time_preserves_order_witness :
  (forall o1 o2, In o1 (offsets US_Eastern) -> In o2 (offsets US_Eastern) ->
                 o1 - o2 < NANOS_IN_DAY)
  /\ StronglySorted (fun d d' => d + NANOS_IN_DAY <= d')
       [Timestamp_ymd 2016 3 12; Timestamp_ymd 2016 3 13; Timestamp_ymd 2016 3 14]
  /\ days_at_time [Timestamp_ymd 2016 3 12; Timestamp_ymd 2016 3 13;
                   Timestamp_ymd 2016 3 14] (mk_time 8 45 0) US_Eastern 0
     = Ok [Timestamp_ymd_hm 2016 3 12 13 45; Timestamp_ymd_hm 2016 3 13 12 45;
           Timestamp_ymd_hm 2016 3 14 12 45]
  /\ StronglySorted Z.lt
       [Timestamp_ymd_hm 2016 3 12 13 45; Timestamp_ymd_hm 2016 3 13 12 45;
        Timestamp_ymd_hm 2016 3 14 12 45].
Proof.
  assert (H1 : forall o1 o2, In o1 (offsets US_Eastern) ->
                 In o2 (offsets US_Eastern) -> o1 - o2 < NANOS_IN_DAY).
  { intros o1 o2 Ho1 Ho2. cbn in Ho1, Ho2.
    destruct Ho1 as [<-|[<-|[<-|[]]]], Ho2 as [<-|[<-|[<-|[]]]];
      vm_compute; reflexivity. }
  assert (H2 : StronglySorted (fun d d' => d + NANOS_IN_DAY <= d')
                 [Timestamp_ymd 2016 3 12; Timestamp_ymd 2016 3 13;
                  Timestamp_ymd 2016 3 14]).
  { repeat constructor; vm_compute; discriminate. }
  assert (H3 : days_at_time [Timestamp_ymd 2016 3 12; Timestamp_ymd 2016 3 13;
                             Timestamp_ymd 2016 3 14] (mk_time 8 45 0) US_Eastern 0
               = Ok [Timestamp_ymd_hm 2016 3 12 13 45;
                     Timestamp_ymd_hm 2016 3 13 12 45;
                     Timestamp_ymd_hm 2016 3 14 12 45])
    by (vm_compute; reflexivity).
  split; [exact H1|]. split; [exact H2|]. split; [exact H3|].
  exact (days_at_time_preserves_order US_Eastern _ (mk_time 8 45 0) 0 _ H1 H2 H3).
Defined.

(** ** Further properties of the constructor *)

(** X5. For a range that starts on a calendar date the constructor returns
    a calendar exactly when the sessions of the range are those of the
    default range, and the calendar is then the one the default arguments
    give. *)
Theorem init_of_date_range (end_base : Timestamp)
    (adhoc_holidays : list Timestamp) (start end_ : Timestamp) :
  (NANOS_IN_DAY | start) ->
  ((exists c, init end_base adhoc_holidays start end_ = Ok c) <->
   sessions_of adhoc_holidays start end_ = base_sessions end_base adhoc_holidays)
  /\ (forall c, init end_base adhoc_holidays start end_ = Ok c ->
                init end_base adhoc_holidays start_default (end_default end_base)
                = Ok c).
Proof.
  intros Hstart. split; [split|].
  - intros [c Hc]. exact (init_Ok_sessions _ _ _ _ _ Hstart Hc).
  - intros E. eexists.
    rewrite (init_sessions_ext _ _ _ _ start_default (end_default end_base) E).
    apply init_default.
  - intros c Hc. exact (init_date_range _ _ _ _ _ Hstart Hc).
Qed.

(** The constructor refuses the sessions from 1990-12-20 to 1991-01-03,
    as many as the default range of the 1990 setting has. *)
Lemma init_of_date_range_witness :
  (NANOS_IN_DAY | Timestamp_ymd 1990 12 20)
  /\ length (sessions_of holidays_1991 (Timestamp_ymd 1990 12 20)
               (Timestamp_ymd 1991 1 3))
     = length (base_sessions import_1990 holidays_1991)
  /\ ~ (exists c, init import_1990 holidays_1991 (Timestamp_ymd 1990 12 20)
                       (Timestamp_ymd 1991 1 3) = Ok c).
Proof.
  assert (Hdiv : (NANOS_IN_DAY | Timestamp_ymd 1990 12 20))
    by (exists (Timestamp_ymd 1990 12 20 / NANOS_IN_DAY); vm_compute; reflexivity).
  split; [exact Hdiv|]. split; [vm_compute; reflexivity|].
  intros Hc.
  apply (proj1 (init_of_date_range import_1990 holidays_1991
                  (Timestamp_ymd 1990 12 20) (Timestamp_ymd 1991 1 3) Hdiv)) in Hc.
  vm_compute in Hc. discriminate Hc.
Defined.

(** X6. With the default arguments the constructor always returns, and
    every row of the table carries the boundaries of its own date: the
    localised 09:31, 11:30, 13:01 and 15:00 of the row's label. *)
Theorem default_calendar_rows_are_localised (end_base : Timestamp)
    (adhoc_holidays : list Timestamp) :
  exists c,
    init end_base adhoc_holidays start_default (end_default end_base) = Ok c
    /\ forall i d o bs be cl,
         DataFrame.row (schedule c) i = Some (d, (o, bs, be, cl)) ->
         Localize tz d open_times = Ok o
         /\ Localize tz d lunch_break_start = Ok bs
         /\ Localize tz d lunch_break_end = Ok be
         /\ Localize tz d close_times = Ok cl.
Proof.
  eexists. split; [apply init_default|]. intros i d o bs be cl Hrow.
  destruct (default_schedule_row _ _ _ _ _ (init_default _ _) Hrow)
    as (d' & _ & [= -> -> -> -> ->]).
  rewrite !Localize_Shanghai. auto.
Qed.

(** X7. In every constructed calendar, whatever the range, the break of a
    row is that of the row's own date, while its open and close are those
    of the session at the same position in the default range. *)
Theorem constructed_rows (end_base : Timestamp) (adhoc_holidays : list Timestamp)
    (start end_ : Timestamp) (c : SHSZExchangeCalendar) (i : nat)
    (d o bs be cl : Timestamp) :
  init end_base adhoc_holidays start end_ = Ok c ->
  DataFrame.row (schedule c) i = Some (d, (o, bs, be, cl)) ->
  Localize tz d lunch_break_start = Ok bs
  /\ Localize tz d lunch_break_end = Ok be
  /\ exists b, nth_error (base_sessions end_base adhoc_holidays) i = Some b
               /\ Localize tz b open_times = Ok o
               /\ Localize tz b close_times = Ok cl.
Proof.
  intros Hinit Hrow.
  destruct (paired_sessions_row _ _ _ _ _ Hinit _ _ _ _ _ _ Hrow)
    as (b & Hnth & _ & _ & -> & -> & -> & ->).
  rewrite !Localize_Shanghai. split; [reflexivity|]. split; [reflexivity|].
  exists b. split; [|split; apply Localize_Shanghai].
  unfold paired_sessions in Hnth. rewrite nth_error_combine in Hnth.
  destruct (nth_error (sessions_of adhoc_holidays start end_) i); [|discriminate].
  destruct (nth_error (base_sessions end_base adhoc_holidays) i); [|discriminate].
  congruence.
Qed.

(** The calendar asked for from 02:00 on 1990-12-19: the break of its first
    row is that of the row's label, two hours late, its open and close are
    those of the first session of the default range. *)
Lemma constructed_rows_witness :
  exists c,
    init import_1990 holidays_1991 (start_default + 120 * NANOS_IN_MINUTE)
         (end_default import_1990) = Ok c
    /\ DataFrame.row (schedule c) 0
       = Some (Timestamp_ymd_hm 1990 12 19 2 0,
               (Timestamp_ymd_hm 1990 12 19 1 31, Timestamp_ymd_hm 1990 12 19 5 30,
                Timestamp_ymd_hm 1990 12 19 7 1, Timestamp_ymd_hm 1990 12 19 7 0))
    /\ Localize tz (Timestamp_ymd_hm 1990 12 19 2 0) lunch_break_start
       = Ok (Timestamp_ymd_hm 1990 12 19 5 30).
Proof.
  assert (H : match init import_1990 holidays_1991
                      (start_default + 120 * NANOS_IN_MINUTE)
                      (end_default import_1990) with
              | Ok c => DataFrame.row (schedule c) 0
              | Raise _ => None
              end
              = Some (Timestamp_ymd_hm 1990 12 19 2 0,
                      (Timestamp_ymd_hm 1990 12 19 1 31,
                       Timestamp_ymd_hm 1990 12 19 5 30,
                       Timestamp_ymd_hm 1990 12 19 7 1,
                       Timestamp_ymd_hm 1990 12 19 7 0)))
    by (vm_compute; reflexivity).
  destruct (init import_1990 holidays_1991 (start_default + 120 * NANOS_IN_MINUTE)
                 (end_default import_1990)) as [c|e] eqn:E; [|discriminate H].
  exists c. split; [reflexivity|]. split; [exact H|].
  exact (proj1 (constructed_rows import_1990 holidays_1991
                  (start_default + 120 * NANOS_IN_MINUTE) (end_default import_1990)
                  c 0%nat _ _ _ _ _ E H)).
Defined.

Lemma init_empty_range_witness :
  sessions_of holidays_1991 (Timestamp_ymd 1991 1 1) (Timestamp_ymd 1991 1 1) = []
  /\ base_sessions import_1990 holidays_1991 <> []
  /\ init import_1990 holidays_1991 (Timestamp_ymd 1991 1 1) (Timestamp_ymd 1991 1 1)
     = Raise ValueError.
Proof.
  assert (H1 : sessions_of holidays_1991 (Timestamp_ymd 1991 1 1)
                 (Timestamp_ymd 1991 1 1) = []) by (vm_compute; reflexivity).
  assert (H2 : base_sessions import_1990 holidays_1991 <> [])
    by (vm_compute; discriminate).
  split; [exact H1|]. split; [exact H2|].
  exact (init_empty_range import_1990 holidays_1991 _ _ H1 H2).
Defined.

(** ** Further properties of [all_minutes] and [_minutes_per_session] *)

Lemma map_Some_inj (l l' : list Z) : map Some l = map Some l' -> l = l'.
Proof.
  revert l'; induction l as [|a l IH]; intros [|b l']; cbn [map];
    try discriminate; [reflexivity|].
  intros [= -> H]. f_equal. now apply IH.
Qed.

(** X9. On a table whose rows have whole-minute spans and the break after
    the morning, [all_minutes] returns, and every cell of the buffer has
    been written: the grid is the ticks of the first row's two windows,
    then those of the second row, and so on, as many as [daily_sizes]
    adds up to. *)
Theorem all_minutes_is_the_rows_ticks (rows : list Row) (sched : DataFrame.t) :
  Forall valid_row rows ->
  all_minutes (rows_calendar rows sched)
  = Ok (map Some (flat_map row_minutes rows))
  /\ exists sizes,
       daily_sizes (rows_calendar rows sched) = Ok sizes
       /\ Z.of_nat (length (flat_map row_minutes rows)) = fold_right Z.add 0 sizes.
Proof.
  intros Hvalid. split; [now apply all_minutes_rows|].
  eexists. split; [apply rows_calendar_daily_sizes|].
  symmetry. now apply sum_sizes.
Qed.

(** X10. When, in addition, every session closes before the next one
    opens, the grid [all_minutes] returns is strictly ascending, hence free
    of duplicates, without any sorting. *)
Theorem all_minutes_strictly_ascending (rows : list Row) (sched : DataFrame.t)
    (grid : list Timestamp) :
  Forall valid_row rows -> StronglySorted row_before rows ->
  all_minutes (rows_calendar rows sched) = Ok (map Some grid) ->
  StronglySorted Z.lt grid /\ NoDup grid.
Proof.
  intros Hvalid Hsorted Hgrid.
  rewrite (all_minutes_rows rows sched Hvalid) in Hgrid.
  injection Hgrid as Hgrid. apply map_Some_inj in Hgrid. subst grid.
  pose proof (grid_sorted rows Hvalid Hsorted) as Hs.
  split; [exact Hs | now apply StronglySorted_lt_NoDup].
Qed.

(** X11. The instants of that grid are the ticks of the sessions' windows
    and nothing else: an instant is in the grid exactly when it is a whole
    number of minutes after the open and not after the break start, or after
    the break end and not after the close, of some row; the row is then
    unique, and no instant of the grid lies strictly inside the break of any
    row. *)
Theorem all_minutes_ticks (rows : list Row) (sched : DataFrame.t)
    (grid : list Timestamp) :
  Forall valid_row rows -> StronglySorted row_before rows ->
  all_minutes (rows_calendar rows sched) = Ok (map Some grid) ->
  (forall x, In x grid <-> exists r, In r rows /\ in_windows r x)
  /\ (forall x i j r r',
        nth_error rows i = Some r -> nth_error rows j = Some r' ->
        in_windows r x -> in_windows r' x -> i = j)
  /\ (forall x r, In x grid -> In r rows ->
        ~ (row_break_start r < x < row_break_end r)).
Proof.
  intros Hvalid Hsorted Hgrid.
  rewrite (all_minutes_rows rows sched Hvalid) in Hgrid.
  injection Hgrid as Hgrid. apply map_Some_inj in Hgrid. subst grid.
  assert (Hin : forall x, In x (flat_map row_minutes rows) <->
                          exists r, In r rows /\ in_windows r x).
  { intros x. rewrite in_flat_map. pose proof Hvalid as Hv.
    rewrite Forall_forall in Hv.
    split; intros (r & Hr & Hx); exists r; (split; [exact Hr|]);
      now apply (row_minutes_In r x (Hv r Hr)). }
  split; [exact Hin|].
  split; [intros x i j r r'; now apply windows_of_one_row|].
  intros x r Hx Hr Hbreak. apply Hin in Hx as (r' & Hr' & Hx).
  pose proof Hvalid as Hv. rewrite Forall_forall in Hv.
  destruct (In_nth_error _ _ Hr) as [i Hi].
  destruct (In_nth_error _ _ Hr') as [j Hj].
  pose proof (in_windows_bounds r' x (Hv r' Hr') Hx) as [Hb' Hnb'].
  destruct (Hv r Hr) as ((kb & Hkb & Ebs) & Hlt & (ka & Hka & Ecl)).
  destruct (Nat.lt_total i j) as [Hij|[Hij|Hij]].
  - pose proof (StronglySorted_nth_error _ _ _ _ _ _ Hsorted Hi Hj Hij) as H.
    unfold row_before in H. nanos. lia.
  - subst j. assert (r' = r) by congruence. subst r'. exact (Hnb' Hbreak).
  - pose proof (StronglySorted_nth_error _ _ _ _ _ _ Hsorted Hj Hi Hij) as H.
    unfold row_before in H. nanos. lia.
Qed.

Lemma map_const_repeat {A B : Type} (b : B) (l : list A) :
  map (fun _ => b) l = repeat b (length l).
Proof. induction l as [|a l IH]; cbn [map length repeat]; [reflexivity | now rewrite IH]. Qed.

Lemma sum_repeat (v : Z) (n : nat) :
  fold_right Z.add 0 (repeat v n) = v * Z.of_nat n.
Proof. induction n as [|n IH]; cbn [repeat fold_right]; [lia | rewrite IH; lia]. Qed.

Lemma per_session_240 (s b : Timestamp) :
  (NANOS_IN_MINUTE | s) -> (NANOS_IN_MINUTE | b) ->
  astype_m (at_utc8 lunch_break_start s) - astype_m (at_utc8 open_times b)
  + (astype_m (at_utc8 close_times b) - astype_m (at_utc8 lunch_break_end s))
  + 2 = 240.
Proof.
  intros Hs Hb.
  rewrite !astype_m_sub by (apply at_utc8_whole_minute; auto).
  destruct Hs as [qs ->], Hb as [qb ->].
  unfold at_utc8, Timedelta.
  cbn [hour minute second open_times close_times lunch_break_start lunch_break_end].
  replace (qs * NANOS_IN_MINUTE + (0 * NANOS_IN_DAY + 11 * NANOS_IN_HOUR
             + 30 * NANOS_IN_MINUTE + 0 * NANOS_IN_SECOND) - 8 * NANOS_IN_HOUR
           - (qb * NANOS_IN_MINUTE + (0 * NANOS_IN_DAY + 9 * NANOS_IN_HOUR
                + 31 * NANOS_IN_MINUTE + 0 * NANOS_IN_SECOND) - 8 * NANOS_IN_HOUR))
    with ((qs - qb + 119) * NANOS_IN_MINUTE) by (nanos; lia).
  replace (qb * NANOS_IN_MINUTE + (0 * NANOS_IN_DAY + 15 * NANOS_IN_HOUR
             + 0 * NANOS_IN_MINUTE + 0 * NANOS_IN_SECOND) - 8 * NANOS_IN_HOUR
           - (qs * NANOS_IN_MINUTE + (0 * NANOS_IN_DAY + 13 * NANOS_IN_HOUR
                + 1 * NANOS_IN_MINUTE + 0 * NANOS_IN_SECOND) - 8 * NANOS_IN_HOUR))
    with ((qb - qs + 119) * NANOS_IN_MINUTE) by (nanos; lia).
  rewrite !Z.quot_mul by (nanos; lia). lia.
Qed.

Lemma paired_sessions_whole_minute (end_base : Timestamp)
    (adhoc_holidays : list Timestamp) (start end_ s b : Timestamp) :
  (NANOS_IN_MINUTE | start) ->
  In (s, b) (paired_sessions end_base adhoc_holidays start end_) ->
  (NANOS_IN_MINUTE | s) /\ (NANOS_IN_MINUTE | b).
Proof.
  intros Hstart Hp. unfold paired_sessions in Hp. split.
  - apply in_combine_l in Hp.
    exact (date_range_whole_minute start end_ (day adhoc_holidays) s Hstart Hp).
  - apply in_combine_r in Hp.
    exact (date_range_whole_minute start_default (end_default end_base)
             (day adhoc_holidays) b start_default_whole_minute Hp).
Qed.

(** X14. In every constructed calendar whose range starts on a whole minute,
    [_minutes_per_session] returns 240 for every row of the table, whether
    or not the row's open and close belong to the row's date. *)
Theorem minutes_per_session_is_240 (end_base : Timestamp)
    (adhoc_holidays : list Timestamp) (start end_ : Timestamp)
    (c : SHSZExchangeCalendar) :
  (NANOS_IN_MINUTE | start) ->
  init end_base adhoc_holidays start end_ = Ok c ->
  _minutes_per_session c
  = Ok (repeat 240 (length (DataFrame.index (schedule c)))).
Proof.
  intros Hstart Hinit.
  rewrite (constructed_minutes_per_session _ _ _ _ _ Hinit). f_equal.
  destruct (init_Ok _ _ _ _ _ Hinit) as [Hlen ->]. cbn [schedule DataFrame.index].
  transitivity (map (fun _ : Timestamp * Timestamp => 240)
                    (paired_sessions end_base adhoc_holidays start end_)).
  - apply map_ext_in. intros [s b] Hp. cbn [fst snd].
    destruct (paired_sessions_whole_minute _ _ _ _ _ _ Hstart Hp) as [Hs Hb].
    now apply per_session_240.
  - rewrite map_const_repeat. f_equal. unfold paired_sessions.
    rewrite length_combine. lia.
Qed.

Lemma minutes_per_session_is_240_witness :
  (NANOS_IN_MINUTE | start_default + 120 * NANOS_IN_MINUTE)
  /\ exists c,
       init import_1990 holidays_1991 (start_default + 120 * NANOS_IN_MINUTE)
            (end_default import_1990) = Ok c
       /\ _minutes_per_session c
          = Ok (repeat 240 (length (DataFrame.index (schedule c)))).
Proof.
  assert (Hdiv : (NANOS_IN_MINUTE | start_default + 120 * NANOS_IN_MINUTE))
    by (exists ((start_default + 120 * NANOS_IN_MINUTE) / NANOS_IN_MINUTE);
        vm_compute; reflexivity).
  split; [exact Hdiv|].
  destruct (init import_1990 holidays_1991 (start_default + 120 * NANOS_IN_MINUTE)
                 (end_default import_1990)) as [c|e] eqn:E;
    [|exfalso; vm_compute in E; discriminate E].
  exists c. split; [reflexivity|].
  exact (minutes_per_session_is_240 import_1990 holidays_1991
           (start_default + 120 * NANOS_IN_MINUTE) (end_default import_1990)
           c Hdiv E).
Defined.

Lemma default_rows_sizes (end_base : Timestamp) (adhoc_holidays : list Timestamp) :
  map (fun r => before_size r + after_size r) (default_rows end_base adhoc_holidays)
  = repeat 240 (length (base_sessions end_base adhoc_holidays)).
Proof.
  unfold default_rows. rewrite map_map, <- map_const_repeat.
  apply map_ext. intros d. unfold before_size, after_size.
  cbn [row_open row_break_start row_break_end row_close].
  destruct (default_spans d) as [-> ->]. reflexivity.
Qed.

(** X12. With the default arguments, [all_minutes] returns a grid of 240
    ticks for every session, and its length is the sum of what
    [_minutes_per_session] returns. *)
Theorem default_grid_size (end_base : Timestamp) (adhoc_holidays : list Timestamp)
    (c : SHSZExchangeCalendar) :
  init end_base adhoc_holidays start_default (end_default end_base) = Ok c ->
  exists grid per_session,
    all_minutes c = Ok (map Some grid)
    /\ _minutes_per_session c = Ok per_session
    /\ Z.of_nat (length grid) = fold_right Z.add 0 per_session
    /\ Z.of_nat (length grid)
       = 240 * Z.of_nat (length (DataFrame.index (schedule c))).
Proof.
  intros Hinit.
  assert (Hper : _minutes_per_session c
                 = Ok (repeat 240 (length (DataFrame.index (schedule c))))).
  { rewrite (constructed_minutes_per_session _ _ _ _ _ Hinit). f_equal.
    destruct (init_Ok _ _ _ _ _ Hinit) as [Hlen ->]. cbn [schedule DataFrame.index].
    transitivity (map (fun _ : Timestamp * Timestamp => 240)
                      (paired_sessions end_base adhoc_holidays start_default
                         (end_default end_base))).
    - apply map_ext_in. intros [s b] Hp. cbn [fst snd].
      destruct (paired_sessions_whole_minute _ _ _ _ _ _
                  start_default_whole_minute Hp) as [Hs Hb].
      now apply per_session_240.
    - rewrite map_const_repeat. f_equal. unfold paired_sessions.
      rewrite length_combine. lia. }
  exists (flat_map row_minutes (default_rows end_base adhoc_holidays)).
  eexists. split; [|split; [exact Hper|]].
  - destruct (init_Ok _ _ _ _ _ Hinit) as [_ ->].
    etransitivity;
      [|exact (all_minutes_rows (default_rows end_base adhoc_holidays)
                 (DataFrame.mk (sessions_of adhoc_holidays start_default
                                  (end_default end_base))
                    (map (at_utc8 open_times) (base_sessions end_base adhoc_holidays))
                    (map (at_utc8 close_times) (base_sessions end_base adhoc_holidays))
                    (map (at_utc8 lunch_break_start)
                         (sessions_of adhoc_holidays start_default
                            (end_default end_base)))
                    (map (at_utc8 lunch_break_end)
                         (sessions_of adhoc_holidays start_default
                            (end_default end_base))))
                 (default_rows_valid _ _))].
    unfold rows_calendar, default_rows. rewrite !map_map. reflexivity.
  - pose proof (sum_sizes _ (default_rows_valid end_base adhoc_holidays)) as Hsum.
    rewrite default_rows_sizes, sum_repeat in Hsum.
    destruct (init_Ok _ _ _ _ _ Hinit) as [_ ->]. cbn [schedule DataFrame.index].
    fold (base_sessions end_base adhoc_holidays).
    rewrite sum_repeat. split; symmetry; exact Hsum.
Qed.

Lemma default_grid_size_witness :
  exists c,
    init import_1990 holidays_1991 start_default (end_default import_1990) = Ok c
    /\ exists grid per_session,
         all_minutes c = Ok (map Some grid)
         /\ _minutes_per_session c = Ok per_session
         /\ Z.of_nat (length grid) = fold_right Z.add 0 per_session
         /\ Z.of_nat (length grid)
            = 240 * Z.of_nat (length (DataFrame.index (schedule c))).
Proof.
  destruct (init import_1990 holidays_1991 start_default (end_default import_1990))
    as [c|e] eqn:E; [|exfalso; vm_compute in E; discriminate E].
  exists c. split; [reflexivity|].
  exact (default_grid_size import_1990 holidays_1991 c E).
Defined.

(** X15. [all_minutes] does not round a span that is not a whole number of
    minutes: when the first row's break start lies a fraction of a minute
    past a tick after the open, the ticks up to it are one more than the
    size computed for them, and [all_minutes] raises [ValueError]. *)
Theorem all_minutes_fractional_span_raises (r : Row) (rest : list Row)
    (sched : DataFrame.t) (k rho : Z) :
  0 <= k -> 0 < rho < NANOS_IN_MINUTE ->
  row_break_start r = row_open r + k * NANOS_IN_MINUTE + rho ->
  all_minutes (rows_calendar (r :: rest) sched) = Raise ValueError.
Proof.
  intros Hk Hrho Hbs. unfold all_minutes.
  rewrite rows_calendar_before_sizes, rows_calendar_after_sizes,
    rows_calendar_daily_sizes.
  cbn [bind]. unfold np_empty.
  destruct (fold_right Z.add 0
              (map (fun r0 => before_size r0 + after_size r0) (r :: rest)) <? 0);
    [reflexivity|].
  cbn [bind map fill]. unfold rows_calendar.
  cbn [_opens _closes _lunch_break_starts _lunch_break_ends map].
  unfold getitem at 1 2 3 4. cbn [nth_error bind].
  set (buf := repeat None _).
  assert (Hsize : before_size r = k + 1).
  { unfold before_size, span_size. rewrite Hbs.
    replace (row_open r + k * NANOS_IN_MINUTE + rho - row_open r)
      with (rho + k * NANOS_IN_MINUTE) by lia.
    rewrite Z.quot_div_nonneg by (nanos; lia).
    rewrite Z.div_add, Z.div_small by (nanos; lia). lia. }
  assert (Hlen : length (arange (row_open r) (row_break_start r + NANOS_IN_MINUTE)
                                NANOS_IN_MINUTE) = Z.to_nat (k + 2)).
  { rewrite arange_length, Hbs. f_equal.
    replace (row_open r - (row_open r + k * NANOS_IN_MINUTE + rho + NANOS_IN_MINUTE))
      with ((NANOS_IN_MINUTE - rho) + (- (k + 2)) * NANOS_IN_MINUTE) by lia.
    rewrite Z.div_add, Z.div_small by (nanos; lia). lia. }
  assert (Hset : setslice buf 0 (0 + before_size r)
                   (arange (row_open r) (row_break_start r + NANOS_IN_MINUTE)
                           NANOS_IN_MINUTE) = Raise ValueError).
  { unfold setslice. rewrite Hsize.
    assert (Hn : (Z.to_nat (slice_index (0 + (k + 1)) (Z.of_nat (length buf))
                            - slice_index 0 (Z.of_nat (length buf)))
                  < Z.to_nat (k + 2))%nat).
    { unfold slice_index.
      destruct (Z.ltb_spec (0 + (k + 1)) 0), (Z.ltb_spec 0 0); lia. }
    destruct (arange (row_open r) (row_break_start r + NANOS_IN_MINUTE)
                     NANOS_IN_MINUTE) as [|a [|b l]] eqn:Ea;
      cbn [length] in Hlen; try lia.
    destruct (Nat.eqb_spec (length (a :: b :: l))
                (Z.to_nat (slice_index (0 + (k + 1)) (Z.of_nat (length buf))
                           - slice_index 0 (Z.of_nat (length buf))))) as [E|_];
      [cbn [length] in E; lia | reflexivity]. }
  rewrite Hset. reflexivity.
Qed.

(** ** Worked instances *)

Lemma rows_march_2016_valid : Forall valid_row rows_march_2016.
Proof.
  repeat (apply Forall_cons || apply Forall_nil);
    (split; [exists 119; split; [lia | vm_compute; reflexivity]
            | split; [vm_compute; reflexivity
                     | exists 119; split; [lia | vm_compute; reflexivity]]]).
Qed.

Lemma rows_march_2016_sorted : StronglySorted row_before rows_march_2016.
Proof.
  apply SSorted_cons; [apply SSorted_cons; [apply SSorted_nil | apply Forall_nil]|].
  apply Forall_cons; [vm_compute; reflexivity | apply Forall_nil].
Qed.

Lemma rows_march_2016_grid :
  all_minutes (rows_calendar rows_march_2016 schedule_march_2016)
  = Ok (map Some (flat_map row_minutes rows_march_2016)).
Proof. vm_compute. reflexivity. Qed.

Lemma all_minutes_is_the_rows_ticks_witness :
  Forall valid_row rows_march_2016
  /\ all_minutes (rows_calendar rows_march_2016 schedule_march_2016)
     = Ok (map Some (flat_map row_minutes rows_march_2016))
  /\ length (flat_map row_minutes rows_march_2016) = 480%nat.
Proof.
  split; [exact rows_march_2016_valid|].
  split; [|vm_compute; reflexivity].
  exact (proj1 (all_minutes_is_the_rows_ticks rows_march_2016 schedule_march_2016
                  rows_march_2016_valid)).
Defined.

Lemma all_minutes_strictly_ascending_witness :
  Forall valid_row rows_march_2016
  /\ StronglySorted row_before rows_march_2016
  /\ all_minutes (rows_calendar rows_march_2016 schedule_march_2016)
     = Ok (map Some (flat_map row_minutes rows_march_2016))
  /\ StronglySorted Z.lt (flat_map row_minutes rows_march_2016)
  /\ NoDup (flat_map row_minutes rows_march_2016).
Proof.
  split; [exact rows_march_2016_valid|].
  split; [exact rows_march_2016_sorted|].
  split; [exact rows_march_2016_grid|].
  exact (all_minutes_strictly_ascending rows_march_2016 schedule_march_2016 _
           rows_march_2016_valid rows_march_2016_sorted rows_march_2016_grid).
Defined.

Lemma all_minutes_ticks_witness :
  Forall valid_row rows_march_2016
  /\ StronglySorted row_before rows_march_2016
  /\ all_minutes (rows_calendar rows_march_2016 schedule_march_2016)
     = Ok (map Some (flat_map row_minutes rows_march_2016))
  /\ forall x, In x (flat_map row_minutes rows_march_2016) <->
               exists r, In r rows_march_2016 /\ in_windows r x.
Proof.
  split; [exact rows_march_2016_valid|].
  split; [exact rows_march_2016_sorted|].
  split; [exact rows_march_2016_grid|].
  exact (proj1 (all_minutes_ticks rows_march_2016 schedule_march_2016 _
                  rows_march_2016_valid rows_march_2016_sorted
                  rows_march_2016_grid)).
Defined.

Lemma all_minutes_fractional_span_raises_witness :
  0 <= 119
  /\ 0 < 30 * NANOS_IN_SECOND < NANOS_IN_MINUTE
  /\ row_break_start row_half_minute_late
     = row_open row_half_minute_late + 119 * NANOS_IN_MINUTE + 30 * NANOS_IN_SECOND
  /\ all_minutes (rows_calendar [row_half_minute_late] schedule_march_2016)
     = Raise ValueError.
Proof.
  assert (H1 : 0 <= 119) by lia.
  assert (H2 : 0 < 30 * NANOS_IN_SECOND < NANOS_IN_MINUTE)
    by (split; vm_compute; reflexivity).
  assert (H3 : row_break_start row_half_minute_late
               = row_open row_half_minute_late + 119 * NANOS_IN_MINUTE
                 + 30 * NANOS_IN_SECOND) by (vm_compute; reflexivity).
  split; [exact H1|]. split; [exact H2|]. split; [exact H3|].
  exact (all_minutes_fractional_span_raises row_half_minute_late []
           schedule_march_2016 119 (30 * NANOS_IN_SECOND) H1 H2 H3).
Defined.

Lemma default_calendar_rows_are_localised_witness :
  exists c,
    init import_1990 holidays_1991 start_default (end_default import_1990) = Ok c
    /\ DataFrame.row (schedule c) 0
       = Some (Timestamp_ymd 1990 12 19,
               (Timestamp_ymd_hm 1990 12 19 1 31, Timestamp_ymd_hm 1990 12 19 3 30,
                Timestamp_ymd_hm 1990 12 19 5 1, Timestamp_ymd_hm 1990 12 19 7 0))
    /\ Localize tz (Timestamp_ymd 1990 12 19) open_times
       = Ok (Timestamp_ymd_hm 1990 12 19 1 31).
Proof.
  destruct (default_calendar_rows_are_localised import_1990 holidays_1991)
    as (c & Hc & Hrows).
  assert (H : DataFrame.row (schedule c) 0
              = Some (Timestamp_ymd 1990 12 19,
                      (Timestamp_ymd_hm 1990 12 19 1 31,
                       Timestamp_ymd_hm 1990 12 19 3 30,
                       Timestamp_ymd_hm 1990 12 19 5 1,
                       Timestamp_ymd_hm 1990 12 19 7 0))).
  { apply init_Ok in Hc as [_ ->]. vm_compute. reflexivity. }
  exists c. split; [exact Hc|]. split; [exact H|].
  exact (proj1 (Hrows 0%nat _ _ _ _ _ H)).
Defined.

Lemma default_minute_grid_witness :
  exists c,
    init import_1990 holidays_1991 start_default (end_default import_1990) = Ok c
    /\ exists grid,
         all_minutes c = Ok (map Some grid)
         /\ StronglySorted Z.lt grid /\ NoDup grid.
Proof.
  destruct (init import_1990 holidays_1991 start_default (end_default import_1990))
    as [c|e] eqn:E; [|exfalso; vm_compute in E; discriminate E].
  exists c. split; [reflexivity|].
  destruct (default_minute_grid import_1990 holidays_1991 c E)
    as (grid & Hg & Hs & Hnd & _).
  exists grid. split; [exact Hg|]. split; [exact Hs | exact Hnd].
Defined.

(** X16. Series of different lengths, none of length 1, cannot be
    subtracted element by element: when the lunch-break starts and the
    opens are such series, [all_minutes] raises [ValueError] before any
    tick is written. *)
Theorem all_minutes_length_mismatch_raises (self : SHSZExchangeCalendar) :
  length (_lunch_break_starts self) <> length (_opens self) ->
  length (_lunch_break_starts self) <> 1%nat ->
  length (_opens self) <> 1%nat ->
  all_minutes self = Raise ValueError
  /\ daily_sizes self = Raise ValueError.
Proof.
  intros Hne Ha Hb.
  assert (H : daily_before_lunch_sizes self = Raise ValueError).
  { unfold daily_before_lunch_sizes.
    now rewrite (np_binop_mismatch Z.sub _ _ Hne Ha Hb). }
  unfold all_minutes, daily_sizes. rewrite H. split; reflexivity.
Qed.

Lemma all_minutes_length_mismatch_raises_witness :
  length (_lunch_break_starts
            (mk_calendar [] [] (map row_open rows_march_2016)
               (map row_close rows_march_2016) schedule_march_2016))
  <> length (_opens
               (mk_calendar [] [] (map row_open rows_march_2016)
                  (map row_close rows_march_2016) schedule_march_2016))
  /\ all_minutes (mk_calendar [] [] (map row_open rows_march_2016)
                    (map row_close rows_march_2016) schedule_march_2016)
     = Raise ValueError.
Proof.
  assert (H1 : length (_lunch_break_starts
                         (mk_calendar [] [] (map row_open rows_march_2016)
                            (map row_close rows_march_2016) schedule_march_2016))
               <> length (_opens
                            (mk_calendar [] [] (map row_open rows_march_2016)
                               (map row_close rows_march_2016)
                               schedule_march_2016)))
    by (vm_compute; discriminate).
  split; [exact H1|].
  refine (proj1 (all_minutes_length_mismatch_raises _ H1 _ _));
    vm_compute; discriminate.
Defined.
